(** * GoCalculate: the arithmetic expression engine of [main.go]

    A shallow embedding of the expression pipeline of [main.go]
    ([validateArithmeticExpression], [tokenizeExpression], [buildTree],
    [evaluate], [roundFloat], [performArithmeticCalculation]) together with
    models of the Go standard library functions it calls
    ([strconv.ParseFloat], [strconv.FormatFloat], [math.Round],
    [regexp.MatchString] for the one pattern used, [go/parser.ParseExpr]).

    Conventions.
    - A Go [string] is a [string] of bytes.  Every string that passes the
      regular expression of the validator is ASCII, so that one byte is one
      rune there; [tokenizeExpression] is modelled on such strings (a byte
      above 127 is sent to its [default] branch).
    - [float64] is [spec_float] at precision 53 and maximal exponent 1024,
      with the IEEE-754 operations of [SpecFloat].
    - Go's [panic] is the constructor [Panicked] of [outcome]; the lines
      written by [fmt.Println] are collected in a list. *)

From Stdlib Require Import ZArith List Bool Ascii String Lia.
From Stdlib Require Import SpecFloat DecimalString.
Import ListNotations.

Open Scope string_scope.
Open Scope Z_scope.

(** ** Characters and strings *)

Definition isChar (c d : ascii) : bool := Ascii.eqb c d.

Definition byteVal (c : ascii) : Z := Z.of_N (N_of_ascii c).

(** [unicode.IsDigit] on an ASCII rune. *)
Definition IsDigit (c : ascii) : bool :=
  (48 <=? byteVal c) && (byteVal c <=? 57).

(** [string(ch)] for a rune [ch]. *)
Definition string_of_rune (c : ascii) : string := String c EmptyString.

(** The last byte of a non-empty string, [s[len(s)-1]]. *)
Fixpoint lastByte (s : string) : option ascii :=
  match s with
  | EmptyString => None
  | String c EmptyString => Some c
  | String _ rest => lastByte rest
  end.

(** [strings.ReplaceAll(s, " ", "")]. *)
Fixpoint removeSpaces (s : string) : string :=
  match s with
  | EmptyString => EmptyString
  | String c rest =>
      if isChar c " " then removeSpaces rest else String c (removeSpaces rest)
  end.

(** ** Panics *)

Inductive outcome (A : Type) : Type :=
| Returned (a : A)
| Panicked (msg : string).
Arguments Returned {A} a.
Arguments Panicked {A} msg.

Definition bind {A B : Type} (m : outcome A) (k : A -> outcome B) : outcome B :=
  match m with
  | Returned a => k a
  | Panicked msg => Panicked msg
  end.

Notation "x <- m ;; k" := (bind m (fun x => k))
  (at level 61, m at next level, right associativity).

(** ** float64 *)

Module Float64.

Definition prec : Z := 53.
Definition emax : Z := 1024.

Definition float64 : Type := spec_float.

Definition zero : float64 := S754_zero false.
Definition add : float64 -> float64 -> float64 := SFadd prec emax.
Definition sub : float64 -> float64 -> float64 := SFsub prec emax.
Definition mul : float64 -> float64 -> float64 := SFmul prec emax.
Definition div : float64 -> float64 -> float64 := SFdiv prec emax.
Definition neg : float64 -> float64 := SFopp.
(** Go's [==] on float64. *)
Definition eqb : float64 -> float64 -> bool := SFeqb.

(** The float64 nearest to an integer (conversion [float64(n)]). *)
Definition of_Z (n : Z) : float64 := binary_normalize prec emax n 0 false.

Definition isInf (f : float64) : bool :=
  match f with S754_infinity _ => true | _ => false end.

Definition isNaN (f : float64) : bool :=
  match f with S754_nan => true | _ => false end.

(** [math.Round]: nearest integer, halves away from zero; the sign of a
    zero result is the sign of the argument. *)
Definition Round (x : float64) : float64 :=
  match x with
  | S754_finite s m e =>
      if 0 <=? e then x
      else
        let q := (Z.pos m + 2 ^ (- e - 1)) / 2 ^ (- e) in
        if q =? 0 then S754_zero s
        else binary_normalize prec emax (if s then - q else q) 0 false
  | _ => x
  end.

End Float64.
Import Float64.

(** ** strconv.ParseFloat

    On the strings the tokenizer can emit (bytes among the digits and
    [. + - * / ( )]) the syntax accepted by [strconv.ParseFloat] is an
    optional sign, then decimal digits with at most one point and at
    least one digit, then the end of the string.  The value is the
    float64 nearest to the decimal (ties to even); a value that rounds to
    an infinity is a range error.  [None] stands for [err != nil]. *)

Definition digitVal (c : ascii) : Z := byteVal c - 48.

(** Reads the leading digits of [s]: the number they add to [acc], how many
    there are, and what follows them. *)
Fixpoint readDigits (s : string) (acc : Z) (n : Z) : Z * Z * string :=
  match s with
  | String c rest =>
      if IsDigit c then readDigits rest (10 * acc + digitVal c) (n + 1)
      else (acc, n, s)
  | EmptyString => (acc, n, s)
  end.

Definition readSign (s : string) : bool * string :=
  match s with
  | String c rest =>
      if isChar c "-" then (true, rest)
      else if isChar c "+" then (false, rest)
      else (false, s)
  | EmptyString => (false, s)
  end.

(** The float64 nearest to [m / 10 ^ k], with sign [neg]. *)
Definition decimalToFloat (neg : bool) (m k : Z) : float64 :=
  match m with
  | Z.pos p => div (S754_finite neg p 0) (S754_finite false (Z.to_pos (10 ^ k)) 0)
  | _ => S754_zero neg
  end.

Definition ParseFloat (s : string) : option float64 :=
  let '(neg, s1) := readSign s in
  let '(ip, nip, s2) := readDigits s1 0 0 in
  let '(m, nfp, s3) :=
    match s2 with
    | String c rest => if isChar c "." then readDigits rest ip 0 else (ip, 0, s2)
    | EmptyString => (ip, 0, s2)
    end in
  if nip + nfp =? 0 then None
  else
    match s3 with
    | EmptyString =>
        let f := decimalToFloat neg m nfp in
        if isInf f then None else Some f
    | String _ _ => None
    end.

(** ** strconv.FormatFloat(f, 'f', -1, 64)

    The shortest decimal that parses back to [f] (the nearest to [f]
    among the decimals of that length), written without exponent and with
    no more fraction digits than that decimal has. *)

Definition decimalString (n : Z) : string :=
  NilZero.string_of_uint (N.to_uint (Z.to_N n)).

Fixpoint zeros (n : nat) : string :=
  match n with
  | O => EmptyString
  | S n' => String "0" (zeros n')
  end.

(** Drops the trailing zeros of the fraction of [c * 10 ^ s]. *)
Fixpoint trimFraction (fuel : nat) (c s : Z) : Z * Z :=
  match fuel with
  | O => (c, s)
  | S fuel' =>
      if (s <? 0) && (c mod 10 =? 0) then trimFraction fuel' (c / 10) (s + 1)
      else (c, s)
  end.

(** The decimal [c * 10 ^ s] (with [0 < c]) in the [%f] layout. *)
Definition fmtDecimal (c s : Z) : string :=
  let '(c, s) := trimFraction (Z.to_nat (- s)) c s in
  if 0 <=? s then decimalString (c * 10 ^ s)
  else
    let k := - s in
    let frac := decimalString (c mod 10 ^ k) in
    decimalString (c / 10 ^ k) ++ "." ++
    zeros (Z.to_nat k - String.length frac) ++ frac.

(** How many zeros follow the point before the first digit of [X / D < 1]. *)
Fixpoint leadingZeros (fuel : nat) (X D : Z) : Z :=
  match fuel with
  | O => 0
  | S fuel' => if X * 10 <? D then 1 + leadingZeros fuel' (X * 10) D else 0
  end.

(** The [p] with [10 ^ (p - 1) <= X / D < 10 ^ p]. *)
Definition decimalExponent (X D : Z) : Z :=
  if D <=? X then Z.of_nat (String.length (decimalString (X / D)))
  else - leadingZeros (S (Z.to_nat (Z.log2 D))) X D.

(** The choice at one length: [X / D] is the number, [(L / D, U / D)] the
    interval of the decimals that parse back to it (closed when
    [inclusive]), [10 ^ s] the unit of the last digit.  The floor [a] and
    its successor are tried; when both fit, the nearer one is taken. *)
Definition shortestAt (X L U D : Z) (inclusive : bool) (s : Z) : option Z :=
  let NS := 10 ^ Z.max 0 (- s) in
  let DS := D * 10 ^ Z.max 0 s in
  let a := (X * NS) / DS in
  let r := (X * NS) mod DS in
  let fits c :=
    if inclusive then (L * NS <=? c * DS) && (c * DS <=? U * NS)
    else (L * NS <? c * DS) && (c * DS <? U * NS) in
  match fits a, fits (a + 1) with
  | true, true =>
      Some (if 2 * r <? DS then a
            else if DS <? 2 * r then a + 1
            else if Z.even a then a else a + 1)
  | true, false => Some a
  | false, true => Some (a + 1)
  | false, false => None
  end.

(** Tries the lengths [n], [n + 1], ... ([fuel] of them). *)
Fixpoint shortestFrom (fuel : nat) (X L U D : Z) (inclusive : bool) (p n : Z)
  : option (Z * Z) :=
  match fuel with
  | O => None
  | S fuel' =>
      match shortestAt X L U D inclusive (p - n) with
      | Some c => Some (c, p - n)
      | None => shortestFrom fuel' X L U D inclusive p (n + 1)
      end
  end.

(** The shortest decimal [(c, s)], meaning [c * 10 ^ s], of the positive
    float [m * 2 ^ e].  All the quantities are scaled by four so that the
    midpoints to the neighbouring floats are integers over [D]. *)
Definition shortestDecimal (m : positive) (e : Z) : Z * Z :=
  let e2 := e - 2 in
  let scale := 2 ^ Z.max 0 e2 in
  let D := 2 ^ Z.max 0 (- e2) in
  let X := 4 * Z.pos m * scale in
  let U := (4 * Z.pos m + 2) * scale in
  let L :=
    if (Z.pos m =? 2 ^ 52) && (emin prec emax <? e)
    then (4 * Z.pos m - 1) * scale
    else (4 * Z.pos m - 2) * scale in
  let p := decimalExponent X D in
  match shortestFrom 17 X L U D (Z.even (Z.pos m)) p 1 with
  | Some cs => cs
  | None => (X * 5 ^ Z.max 0 (- e2), - Z.max 0 (- e2))
  end.

Definition FormatFloat (f : float64) : string :=
  match f with
  | S754_nan => "NaN"
  | S754_infinity s => if s then "-Inf" else "+Inf"
  | S754_zero s => if s then "-0" else "0"
  | S754_finite s m e =>
      let '(c, sc) := shortestDecimal m e in
      (if s then "-" else "") ++ fmtDecimal c sc
  end.

(** ** tokenizeExpression *)

(** [append(tokens, tok)]. *)
Definition append (toks : list string) (tok : string) : list string :=
  (toks ++ [tok])%list.

(** The local variables of [tokenizeExpression], and the lines it has
    written to the standard output. *)
Record tokState : Type := mkTokState {
  tokens : list string;
  number : string;        (* the strings.Builder *)
  prevToken : string;
  printed : list string
}.

Definition isOperatorChar (ch : ascii) : bool :=
  isChar ch "+" || isChar ch "-" || isChar ch "*" || isChar ch "/".

(** [if number.Len() > 0 { tokens = append(tokens, number.String());
    number.Reset() }] *)
Definition flushNumber (st : tokState) : tokState :=
  match number st with
  | EmptyString => st
  | String _ _ =>
      mkTokState (append (tokens st) (number st)) EmptyString (prevToken st) (printed st)
  end.

(** The test that sends a ['-'] to the number being accumulated. *)
Definition unaryMinusTest (i : nat) (prev : string) : bool :=
  Nat.eqb i 0 || String.eqb prev "(" || String.eqb prev "" ||
  String.eqb prev "+" || String.eqb prev "-" ||
  String.eqb prev "*" || String.eqb prev "/".

(** The test that inserts a ["*"] before a ['(']. *)
Definition implicitMulTest (toks : list string) : bool :=
  match toks with
  | [] => false
  | _ :: _ =>
      let lastToken := List.last toks "" in
      match lastByte lastToken with
      | Some c => IsDigit c || String.eqb lastToken ")"
      | None => String.eqb lastToken ")"
      end
  end.

(** One iteration of [for i, ch := range expression]. *)
Definition tokStep (i : nat) (ch : ascii) (st : tokState) : tokState :=
  if IsDigit ch || isChar ch "." then
    mkTokState (tokens st) (number st ++ string_of_rune ch) (prevToken st) (printed st)
  else if isOperatorChar ch then
    let st1 := flushNumber st in
    if isChar ch "-" && unaryMinusTest i (prevToken st1) then
      mkTokState (tokens st1) (number st1 ++ string_of_rune ch) (prevToken st1) (printed st1)
    else
      mkTokState (append (tokens st1) (string_of_rune ch)) (number st1)
                 (string_of_rune ch) (printed st1)
  else if isChar ch "(" || isChar ch ")" then
    let st1 := flushNumber st in
    let toks :=
      if isChar ch "(" && implicitMulTest (tokens st1)
      then append (tokens st1) "*" else tokens st1 in
    mkTokState (append toks (string_of_rune ch)) (number st1)
               (string_of_rune ch) (printed st1)
  else if isChar ch " " then st
  else
    mkTokState (tokens st) (number st) (prevToken st)
               (append (printed st) ("Unexpected character: " ++ string_of_rune ch)).

(** The loop, byte by byte: on an ASCII expression a byte is a rune and
    its offset the index [i] of the source. *)
Fixpoint tokLoop (i : nat) (expression : string) (st : tokState) : tokState :=
  match expression with
  | EmptyString => st
  | String ch rest => tokLoop (S i) rest (tokStep i ch st)
  end.

Definition tokInit : tokState := mkTokState [] EmptyString EmptyString [].

(** The state when the function returns: [tokens] is the value returned. *)
Definition tokenizeRun (expression : string) : tokState :=
  flushNumber (tokLoop 0 expression tokInit).

Definition tokenizeExpression (expression : string) : list string :=
  tokens (tokenizeRun expression).

(** ** buildTree *)

(** A [*Node]: [nil], or a pointer to a node that owns its two children. *)
Inductive Node : Type :=
| NilNode
| MkNode (Value : string) (Left Right : Node).

Definition isNil (n : Node) : bool :=
  match n with NilNode => true | MkNode _ _ _ => false end.

(** The map [precedence]; [None] when the key is absent. *)
Definition precedence (tok : string) : option Z :=
  if String.eqb tok "+" then Some 1
  else if String.eqb tok "-" then Some 1
  else if String.eqb tok "*" then Some 2
  else if String.eqb tok "/" then Some 2
  else None.

(** [tokens[i]] for an index within bounds. *)
Definition tokenAt (toks : list string) (i : Z) : string :=
  nth (Z.to_nat i) toks "".

Definition parsesAsFloat (s : string) : bool :=
  match ParseFloat s with Some _ => true | None => false end.

(** The loop [for i := start; i <= end; i++] that looks for the operator
    to split at: [n] iterations are left, [i] is the index, and
    [(minPrecedence, opIndex, parens)] are the loop's variables.  It
    returns the final [opIndex]. *)
Fixpoint findOperator (toks : list string) (n : nat) (i : Z)
    (minPrecedence opIndex parens : Z) : Z :=
  match n with
  | O => opIndex
  | S n' =>
      let tok := tokenAt toks i in
      if String.eqb tok "(" then
        findOperator toks n' (i + 1) minPrecedence opIndex (parens + 1)
      else if String.eqb tok ")" then
        findOperator toks n' (i + 1) minPrecedence opIndex (parens - 1)
      else
        match precedence tok with
        | Some p =>
            if (parens =? 0) && (p <=? minPrecedence)
            then findOperator toks n' (i + 1) p i parens
            else findOperator toks n' (i + 1) minPrecedence opIndex parens
        | None => findOperator toks n' (i + 1) minPrecedence opIndex parens
        end
  end.

(** The closure [build].  The first argument bounds the number of tokens of
    the range, [end - start + 1]: every recursive call is on a strictly
    shorter range, so that it is never the reason of a [nil]
    ([build_fuel_stable] below).  The ranges stay within the slice (the
    first one is [0 .. len(tokens)-1], and a split index lies in the range
    it was found in, [findOperator_range]); a token is read at [start],
    at [end], at [start+1 <= end] or at a split index only, and only once
    [start <= end] is known: no index is out of range. *)
Fixpoint build (size : nat) (toks : list string) (start end_ : Z) : Node :=
  match size with
  | O => NilNode
  | S size' =>
      if end_ <? start then NilNode
      else if (start =? end_) && parsesAsFloat (tokenAt toks start) then
        MkNode (tokenAt toks start) NilNode NilNode
      else if String.eqb (tokenAt toks start) "-" && (start + 1 <=? end_)
              && parsesAsFloat (tokenAt toks (start + 1)) then
        MkNode (tokenAt toks start ++ tokenAt toks (start + 1)) NilNode NilNode
      else if String.eqb (tokenAt toks start) "(" && String.eqb (tokenAt toks end_) ")" then
        build size' toks (start + 1) (end_ - 1)
      else
        let opIndex :=
          findOperator toks (Z.to_nat (end_ - start + 1)) start 3 (-1) 0 in
        if negb (opIndex =? -1) then
          MkNode (tokenAt toks opIndex)
                 (build size' toks start (opIndex - 1))
                 (build size' toks (opIndex + 1) end_)
        else NilNode
  end.

Definition buildTree (toks : list string) : Node :=
  match toks with
  | [] => NilNode
  | _ :: _ => build (List.length toks) toks 0 (Z.of_nat (List.length toks) - 1)
  end.

(** ** evaluate and roundFloat *)

Fixpoint evaluate (node : Node) : outcome float64 :=
  match node with
  | NilNode => Returned zero
  | MkNode Value Left Right =>
      if isNil Left && isNil Right then
        match ParseFloat Value with
        | Some num => Returned num
        | None => Panicked ("Invalid number: " ++ Value)
        end
      else if isNil Left && String.eqb Value "-" then
        rightVal <- evaluate Right ;;
        Returned (neg rightVal)
      else
        leftVal <- evaluate Left ;;
        rightVal <- evaluate Right ;;
        if String.eqb Value "+" then Returned (add leftVal rightVal)
        else if String.eqb Value "-" then Returned (sub leftVal rightVal)
        else if String.eqb Value "*" then Returned (mul leftVal rightVal)
        else if String.eqb Value "/" then
          if eqb rightVal zero then Panicked "division by zero"
          else Returned (div leftVal rightVal)
        else Panicked ("unknown operator: " ++ Value)
  end.

(** [math.Pow(10, float64(precision))]: a power of ten that a float64
    holds exactly (up to [10 ^ 22]; the only call has [precision = 4]). *)
Definition Pow10 (precision : Z) : float64 := of_Z (10 ^ precision).

Definition roundFloat (val : float64) (precision : Z) : float64 :=
  let ratio := Pow10 precision in
  div (Round (mul val ratio)) ratio.

(** ** validateArithmeticExpression *)

(** The character class [[0-9\+\-\*/\(\)\s.]]; [\s] is the class
    [[\t\n\f\r ]] of Go's regexp syntax. *)
Definition inClass (c : ascii) : bool :=
  IsDigit c || isChar c "+" || isChar c "-" || isChar c "*" || isChar c "/" ||
  isChar c "(" || isChar c ")" || isChar c "." ||
  isChar c "009" || isChar c "010" || isChar c "012" || isChar c "013" ||
  isChar c " ".

Fixpoint allInClass (s : string) : bool :=
  match s with
  | EmptyString => true
  | String c rest => inClass c && allInClass rest
  end.

(** [re.MatchString(s)] for [^[0-9\+\-\*/\(\)\s.]+$]: the whole string, one
    character or more, all of the class.  (The class is ASCII, so whether a
    byte above 127 stands alone or inside a multi-byte rune, it fails.) *)
Definition matchesPattern (s : string) : bool :=
  match s with
  | EmptyString => false
  | String _ _ => allInClass s
  end.

(** *** go/parser.ParseExpr on the strings of the class

    The scanner of [go/scanner] as a transducer that reads one character
    at a time.  Over the characters of the class it produces the tokens
    below; a semicolon is inserted at a newline or at the end of the input
    that follows a literal, a [')'], a [++] or a [--].  Comments ([//] to
    the end of the line, [/* ... */]) count as white space, a newline in
    them as a newline.  The scanner's errors are an invalid digit in an
    octal integer literal, a comment that is not terminated, and a
    character that starts no token. *)
Inductive gotoken : Type :=
| INT | FLOAT | ADD | SUB | MUL | QUO | INC | DEC
| LPAREN | RPAREN | PERIOD | ELLIPSIS | SEMICOLON.

Inductive scanMode : Type :=
| Between (insertSemi : bool)           (* no token is being read *)
| SawPlus                               (* after a '+' *)
| SawMinus                              (* after a '-' *)
| SawSlash (insertSemi : bool)          (* after a '/' *)
| SawDot                                (* after a '.' that starts no number *)
| SawDotDot                             (* after two such '.' *)
| InInt (octal invalid : bool)          (* in the integer part of a number *)
| InFraction                            (* after the point of a number *)
| InLineComment (insertSemi : bool)
| InBlockComment (insertSemi star : bool).

(** The result of reading one character: the tokens completed by it and the
    next mode, or [None] for a scanner error. *)
Definition scanResult : Type := option (list gotoken * scanMode).

Definition emit (t : gotoken) (r : scanResult) : scanResult :=
  match r with
  | Some (ts, m) => Some (t :: ts, m)
  | None => None
  end.

Definition scanBetween (insertSemi : bool) (c : ascii) : scanResult :=
  if isChar c " " || isChar c "009" || isChar c "013" then
    Some ([], Between insertSemi)
  else if isChar c "010" then
    Some (if insertSemi then [SEMICOLON] else [], Between false)
  else if IsDigit c then Some ([], InInt (isChar c "0") false)
  else if isChar c "." then Some ([], SawDot)
  else if isChar c "+" then Some ([], SawPlus)
  else if isChar c "-" then Some ([], SawMinus)
  else if isChar c "*" then Some ([MUL], Between false)
  else if isChar c "/" then Some ([], SawSlash insertSemi)
  else if isChar c "(" then Some ([LPAREN], Between false)
  else if isChar c ")" then Some ([RPAREN], Between true)
  else None.

Definition scanAfterDot (c : ascii) : scanResult :=
  if IsDigit c then Some ([], InFraction)
  else if isChar c "." then Some ([], SawDotDot)
  else emit PERIOD (scanBetween false c).

Definition scanChar (m : scanMode) (c : ascii) : scanResult :=
  match m with
  | Between insertSemi => scanBetween insertSemi c
  | SawPlus =>
      if isChar c "+" then Some ([INC], Between true)
      else emit ADD (scanBetween false c)
  | SawMinus =>
      if isChar c "-" then Some ([DEC], Between true)
      else emit SUB (scanBetween false c)
  | SawSlash insertSemi =>
      if isChar c "/" then Some ([], InLineComment insertSemi)
      else if isChar c "*" then Some ([], InBlockComment insertSemi false)
      else emit QUO (scanBetween false c)
  | SawDot => scanAfterDot c
  | SawDotDot =>
      if isChar c "." then Some ([ELLIPSIS], Between false)
      else emit PERIOD (scanAfterDot c)
  | InInt octal invalid =>
      if IsDigit c then Some ([], InInt octal (invalid || (octal && (56 <=? byteVal c))))
      else if isChar c "." then Some ([], InFraction)
      else if invalid then None
      else emit INT (scanBetween true c)
  | InFraction =>
      if IsDigit c then Some ([], InFraction)
      else emit FLOAT (scanBetween true c)
  | InLineComment insertSemi =>
      if isChar c "010" then scanBetween insertSemi c
      else Some ([], InLineComment insertSemi)
  | InBlockComment insertSemi star =>
      if star && isChar c "/" then Some ([], Between insertSemi)
      else if isChar c "010" then
        Some (if insertSemi then [SEMICOLON] else [], InBlockComment false false)
      else Some ([], InBlockComment insertSemi (isChar c "*"))
  end.

(** The tokens completed by the end of the input. *)
Definition scanEnd (m : scanMode) : option (list gotoken) :=
  let semi (b : bool) := if b then [SEMICOLON] else [] in
  match m with
  | Between insertSemi => Some (semi insertSemi)
  | SawPlus => Some [ADD]
  | SawMinus => Some [SUB]
  | SawSlash _ => Some [QUO]
  | SawDot => Some [PERIOD]
  | SawDotDot => Some [PERIOD; PERIOD]
  | InInt _ invalid => if invalid then None else Some [INT; SEMICOLON]
  | InFraction => Some [FLOAT; SEMICOLON]
  | InLineComment insertSemi => Some (semi insertSemi)
  | InBlockComment _ _ => None
  end.

Fixpoint scan (m : scanMode) (s : string) : option (list gotoken) :=
  match s with
  | EmptyString => scanEnd m
  | String c rest =>
      match scanChar m c with
      | Some (ts, m') =>
          match scan m' rest with
          | Some ts' => Some (ts ++ ts')%list
          | None => None
          end
      | None => None
      end
  end.

(** The parser of [go/parser] as a recognizer.  With the tokens above the
    expressions of Go are
    [Expr = Unary { binop Unary }] with [binop] one of [+ - * /],
    [Unary = unop Unary | Primary] with [unop] one of [+ - *],
    [Primary = Operand { Arguments }],
    [Operand = INT | FLOAT | LPAREN Expr RPAREN],
    [Arguments = LPAREN [ Expr [ ELLIPSIS ] ] RPAREN];
    a leading star is the pointer indirection and [x(y)] a call, which the
    parser accepts of any operand.  [ParseExpr] wants one expression, then
    at most the inserted semicolon, then the end of the input.  The
    recognizer reads the tokens once, with the stack of the parentheses that
    are open. *)
Inductive parseState : Type :=
| WantOperand        (* at the start of a Unary *)
| AfterOperand       (* after a Primary *)
| CallStart          (* after the opening parenthesis of a call *)
| AfterEllipsis.     (* after the ellipsis that ends the arguments *)

Inductive frame : Type :=
| Group              (* a parenthesized operand *)
| Call.              (* the arguments of a call *)

Fixpoint parseTokens (st : parseState) (stack : list frame) (ts : list gotoken)
  : bool :=
  match ts with
  | [] =>
      match st, stack with
      | AfterOperand, [] => true
      | _, _ => false
      end
  | t :: rest =>
      match st, t with
      | (WantOperand | CallStart), (ADD | SUB | MUL) => parseTokens WantOperand stack rest
      | (WantOperand | CallStart), (INT | FLOAT) => parseTokens AfterOperand stack rest
      | (WantOperand | CallStart), LPAREN => parseTokens WantOperand (Group :: stack) rest
      | CallStart, RPAREN =>
          match stack with
          | Call :: stack' => parseTokens AfterOperand stack' rest
          | _ => false
          end
      | AfterOperand, (ADD | SUB | MUL | QUO) => parseTokens WantOperand stack rest
      | AfterOperand, LPAREN => parseTokens CallStart (Call :: stack) rest
      | AfterOperand, RPAREN =>
          match stack with
          | _ :: stack' => parseTokens AfterOperand stack' rest
          | [] => false
          end
      | AfterOperand, ELLIPSIS =>
          match stack with
          | Call :: _ => parseTokens AfterEllipsis stack rest
          | _ => false
          end
      | AfterEllipsis, RPAREN =>
          match stack with
          | Call :: stack' => parseTokens AfterOperand stack' rest
          | _ => false
          end
      | AfterOperand, SEMICOLON =>
          match stack, rest with
          | [], [] => true
          | _, _ => false
          end
      | _, _ => false
      end
  end.

(** [_, err := parser.ParseExpr(s); err == nil], for [s] over the class and
    nested less deeply than the parser's limit of 100000 levels. *)
Definition ParseExprOk (s : string) : bool :=
  match scan (Between false) s with
  | Some ts => parseTokens WantOperand [] ts
  | None => false
  end.

Definition validateArithmeticExpression (Expr : string) : bool :=
  let Expr := removeSpaces Expr in
  if negb (matchesPattern Expr) then false
  else ParseExprOk Expr.

(** ** performArithmeticCalculation

    The function takes the lines already written to the standard output and
    returns them with those of this call; that list is all the state the
    process has (the program declares no package-level variable). *)
Definition performArithmeticCalculation (Expr : string) (stdout : list string)
  : outcome (bool * string) * list string :=
  if validateArithmeticExpression Expr then
    let run := tokenizeRun Expr in
    let stdout' := (stdout ++ printed run)%list in
    let tree := buildTree (tokens run) in
    (val <- evaluate tree ;;
     let result := roundFloat val 4 in
     Returned (true, FormatFloat result),
     stdout')
  else (Returned (false, ""), stdout).

(** The value of a call, whatever was written before it. *)
Definition compute (Expr : string) : outcome (bool * string) :=
  fst (performArithmeticCalculation Expr []).

(** ** Statements of the specification, as predicates *)

(** The characters the specification lists for an expression: the digits,
    [. + - * / ( )] and the space. *)
Definition inSpecSet (c : ascii) : bool :=
  IsDigit c || isChar c "." || isChar c "+" || isChar c "-" || isChar c "*" ||
  isChar c "/" || isChar c "(" || isChar c ")" || isChar c " ".

Fixpoint allDigits (s : string) : bool :=
  match s with
  | EmptyString => true
  | String c rest => IsDigit c && allDigits rest
  end.

(** The bytes a token can hold. *)
Definition isTokenByte (c : ascii) : bool :=
  IsDigit c || isChar c "." || isChar c "+" || isChar c "-" || isChar c "*" ||
  isChar c "/" || isChar c "(" || isChar c ")".

Fixpoint allTokenBytes (s : string) : bool :=
  match s with
  | EmptyString => true
  | String c rest => isTokenByte c && allTokenBytes rest
  end.

(** The invariant of the loop of the tokenizer on the bytes of its tokens. *)
Definition tokensWellFormed (st : tokState) : Prop :=
  Forall (fun tok => allTokenBytes tok = true) (tokens st) /\
  allTokenBytes (number st) = true.

(** The values [prevToken] can take. *)
Definition isPrevToken (s : string) : Prop :=
  s = "" \/ s = "+" \/ s = "-" \/ s = "*" \/ s = "/" \/ s = "(" \/ s = ")".

(** A leaf of the tree. *)
Definition leaf (Value : string) : Node := MkNode Value NilNode NilNode.

(** The expression ["1\t"]: a one and a tab. *)
Definition oneTab : string := String "1" (String "009" EmptyString).

(** ** Predicates used by the further properties *)

(** The strings on which a byte is a rune: those the tokenizer is modelled
    on. *)
Fixpoint isASCII (s : string) : bool :=
  match s with
  | EmptyString => true
  | String c rest => (byteVal c <? 128) && isASCII rest
  end.

Fixpoint allInSpecSet (s : string) : bool :=
  match s with
  | EmptyString => true
  | String c rest => inSpecSet c && allInSpecSet rest
  end.

(** The bytes of [s] that can enter a token, in order. *)
Fixpoint tokenBytes (s : string) : string :=
  match s with
  | EmptyString => EmptyString
  | String c rest =>
      if isTokenByte c then String c (tokenBytes rest) else tokenBytes rest
  end.

(** [strings.Join(toks, "")]. *)
Fixpoint joinTokens (toks : list string) : string :=
  match toks with
  | [] => EmptyString
  | tok :: rest => tok ++ joinTokens rest
  end.

(** How many times the byte [c] occurs in [s]. *)
Fixpoint countChar (c : ascii) (s : string) : nat :=
  match s with
  | EmptyString => O
  | String d rest => ((if isChar d c then 1 else 0) + countChar c rest)%nat
  end.

Fixpoint hasDigit (s : string) : bool :=
  match s with
  | EmptyString => false
  | String c rest => IsDigit c || hasDigit rest
  end.

(** A tree in which every node that has a child carries one of the four
    operators. *)
Fixpoint operatorTagged (node : Node) : bool :=
  match node with
  | NilNode => true
  | MkNode Value Left Right =>
      (isNil Left && isNil Right) ||
      (match precedence Value with Some _ => true | None => false end &&
       operatorTagged Left && operatorTagged Right)
  end.

(** The two numbers [10 ^ 200] multiplied: an expression whose value
    overflows. *)
Definition overflowing : string :=
  String "1" (zeros 200) ++ String "*" (String "1" (zeros 200)).

(** The same, times zero. *)
Definition undefinedValue : string := overflowing ++ "*0".

(** Counting the tokens of the scanner. *)
Definition isOperandToken (t : gotoken) : bool :=
  match t with INT | FLOAT => true | _ => false end.

Fixpoint countOpen (ts : list gotoken) : nat :=
  match ts with
  | [] => O
  | LPAREN :: rest => S (countOpen rest)
  | _ :: rest => countOpen rest
  end.

Fixpoint countClose (ts : list gotoken) : nat :=
  match ts with
  | [] => O
  | RPAREN :: rest => S (countClose rest)
  | _ :: rest => countClose rest
  end.

(** No ['/'] of [s] is directly followed by a ['/'] or a ['*']: [s] has
    nothing the scanner of Go takes for a comment. *)
Fixpoint noCommentStart (s : string) : bool :=
  match s with
  | EmptyString => true
  | String c rest =>
      (if isChar c "/" then
         match rest with
         | String d _ => negb (isChar d "/" || isChar d "*")
         | EmptyString => true
         end
       else true) && noCommentStart rest
  end.

(** The scanner is outside a comment and, after a ['/'], the next character
    opens none. *)
Definition commentFree (m : scanMode) (s : string) : bool :=
  match m with
  | SawSlash _ =>
      match s with
      | String d _ => negb (isChar d "/" || isChar d "*")
      | EmptyString => true
      end
  | InLineComment _ | InBlockComment _ _ => false
  | _ => true
  end.

(** The scanner is inside a number. *)
Definition numberMode (m : scanMode) : bool :=
  match m with InInt _ _ | InFraction => true | _ => false end.

(** The bytes that the tokenizer accumulates into a number. *)
Fixpoint allNumberChars (s : string) : bool :=
  match s with
  | EmptyString => true
  | String c rest => (IsDigit c || isChar c ".") && allNumberChars rest
  end.

(** * Properties *)

(** ** Strings *)

Lemma append_empty_r (s : string) : s ++ "" = s.
Proof.
  induction s as [|c s IH]; simpl; [reflexivity | now rewrite IH].
Qed.

Lemma append_assoc_string (a b c : string) : (a ++ b) ++ c = a ++ (b ++ c).
Proof.
  induction a as [|x a IH]; simpl; [reflexivity | now rewrite IH].
Qed.

Lemma isChar_eq (c d : ascii) : isChar c d = true <-> c = d.
Proof. unfold isChar. apply Ascii.eqb_eq. Qed.

Lemma length_append (a b : string) :
  String.length (a ++ b) = (String.length a + String.length b)%nat.
Proof.
  induction a as [|x a IH]; simpl; [reflexivity | now rewrite IH].
Qed.

(** ** The tree builder: the size argument is never what stops it *)

Lemma findOperator_range (toks : list string) (lo : Z) (n : nat) :
  forall i minPrecedence opIndex parens,
    (opIndex = -1 \/ lo <= opIndex < i) -> lo <= i ->
    findOperator toks n i minPrecedence opIndex parens = -1 \/
    lo <= findOperator toks n i minPrecedence opIndex parens < i + Z.of_nat n.
Proof.
  induction n as [|n IH]; intros i minPrecedence opIndex parens Hop Hi.
  - simpl. destruct Hop as [Hop | Hop]; [now left | right; lia].
  - assert (Hstep : forall mp op pa, (op = -1 \/ lo <= op < i + 1) ->
              findOperator toks n (i + 1) mp op pa = -1 \/
              lo <= findOperator toks n (i + 1) mp op pa < i + Z.of_nat (S n)).
    { intros mp op pa H. destruct (IH (i + 1) mp op pa H) as [E | E]; [lia | now left | right; lia]. }
    assert (Hkeep : opIndex = -1 \/ lo <= opIndex < i + 1) by (destruct Hop; [now left | right; lia]).
    cbn [findOperator].
    destruct (String.eqb (tokenAt toks i) "("); [now apply Hstep|].
    destruct (String.eqb (tokenAt toks i) ")"); [now apply Hstep|].
    destruct (precedence (tokenAt toks i)) as [p|]; [|now apply Hstep].
    destruct ((parens =? 0) && (p <=? minPrecedence)); apply Hstep; [right; lia | exact Hkeep].
Qed.

Lemma build_unfold (size : nat) (toks : list string) (start end_ : Z) :
  build (S size) toks start end_ =
    if end_ <? start then NilNode
    else if (start =? end_) && parsesAsFloat (tokenAt toks start) then
      MkNode (tokenAt toks start) NilNode NilNode
    else if String.eqb (tokenAt toks start) "-" && (start + 1 <=? end_)
            && parsesAsFloat (tokenAt toks (start + 1)) then
      MkNode (tokenAt toks start ++ tokenAt toks (start + 1)) NilNode NilNode
    else if String.eqb (tokenAt toks start) "(" && String.eqb (tokenAt toks end_) ")" then
      build size toks (start + 1) (end_ - 1)
    else
      let opIndex :=
        findOperator toks (Z.to_nat (end_ - start + 1)) start 3 (-1) 0 in
      if negb (opIndex =? -1) then
        MkNode (tokenAt toks opIndex)
               (build size toks start (opIndex - 1))
               (build size toks (opIndex + 1) end_)
      else NilNode.
Proof. reflexivity. Qed.

Lemma build_empty_range (size : nat) (toks : list string) (start end_ : Z) :
  end_ < start -> build size toks start end_ = NilNode.
Proof.
  intros H. destruct size as [|size]; [reflexivity|].
  rewrite build_unfold. apply Z.ltb_lt in H. now rewrite H.
Qed.

(** Any size that covers the range gives the same tree: the recursion of
    [build] always ends in one of the source's own [return]s. *)
Lemma build_fuel_stable (toks : list string) (size1 : nat) :
  forall size2 start end_,
    (Z.to_nat (end_ - start + 1) <= size1)%nat ->
    (Z.to_nat (end_ - start + 1) <= size2)%nat ->
    build size1 toks start end_ = build size2 toks start end_.
Proof.
  induction size1 as [|size1 IH]; intros size2 start end_ H1 H2.
  - rewrite !build_empty_range by lia. reflexivity.
  - destruct size2 as [|size2].
    + rewrite !build_empty_range by lia. reflexivity.
    + rewrite !build_unfold.
      destruct (Z.ltb_spec end_ start) as [Hlt | Hge]; [reflexivity|].
      destruct ((start =? end_) && parsesAsFloat (tokenAt toks start)); [reflexivity|].
      destruct (String.eqb (tokenAt toks start) "-" && (start + 1 <=? end_)
                && parsesAsFloat (tokenAt toks (start + 1))); [reflexivity|].
      destruct (String.eqb (tokenAt toks start) "(" && String.eqb (tokenAt toks end_) ")").
      * apply IH; lia.
      * cbv zeta.
        pose proof (findOperator_range toks start (Z.to_nat (end_ - start + 1))
                      start 3 (-1) 0 (or_introl eq_refl) (Z.le_refl start)) as Hr.
        set (opIndex := findOperator toks (Z.to_nat (end_ - start + 1)) start 3 (-1) 0) in *.
        destruct (Z.eqb_spec opIndex (-1)) as [E | E]; [reflexivity|].
        cbn [negb]. f_equal; apply IH; lia.
Qed.

(** ** The validator *)

Lemma inClass_not_space_removed (s : string) (c : ascii) :
  In c (list_ascii_of_string s) -> inClass c = false ->
  allInClass (removeSpaces s) = false.
Proof.
  induction s as [|d s IH]; intros Hin Hc; [destruct Hin|].
  simpl in Hin. simpl.
  destruct (isChar d " ") eqn:Hd.
  - destruct Hin as [-> | Hin]; [|now apply IH].
    apply isChar_eq in Hd. subst c. discriminate Hc.
  - simpl. destruct Hin as [-> | Hin].
    + now rewrite Hc.
    + rewrite (IH Hin Hc). apply andb_false_r.
Qed.

Lemma validate_rejects_outside_class (Expr : string) (c : ascii) :
  In c (list_ascii_of_string Expr) -> inClass c = false ->
  validateArithmeticExpression Expr = false.
Proof.
  intros Hin Hc. unfold validateArithmeticExpression, matchesPattern.
  pose proof (inClass_not_space_removed Expr c Hin Hc) as H.
  destruct (removeSpaces Expr); [reflexivity|]. now rewrite H.
Qed.

(** ** The tokenizer *)

Lemma tokStep_digit (i : nat) (ch : ascii) (st : tokState) :
  IsDigit ch = true ->
  tokStep i ch st =
    mkTokState (tokens st) (number st ++ string_of_rune ch) (prevToken st) (printed st).
Proof. intros H. unfold tokStep. now rewrite H. Qed.

Lemma tokLoop_digits (s : string) :
  forall i st, allDigits s = true ->
    tokLoop i s st = mkTokState (tokens st) (number st ++ s) (prevToken st) (printed st).
Proof.
  induction s as [|c s IH]; intros i st H.
  - simpl. rewrite append_empty_r. now destruct st.
  - simpl in H. apply andb_true_iff in H as [Hc Hs].
    simpl. rewrite (tokStep_digit i c st Hc), (IH _ _ Hs). simpl.
    now rewrite append_assoc_string.
Qed.

Lemma tokLoop_app (a b : string) :
  forall i st,
    tokLoop i (a ++ b) st = tokLoop (i + String.length a) b (tokLoop i a st).
Proof.
  induction a as [|c a IH]; intros i st; simpl.
  - now rewrite Nat.add_0_r.
  - rewrite IH. f_equal. lia.
Qed.

(** What the source does with a ['-']: it becomes an operator token only
    when it is not the first byte and the last operator or parenthesis
    seen is a [")"]. *)
Lemma unaryMinusTest_false_iff (i : nat) (prev : string) :
  isPrevToken prev ->
  (unaryMinusTest i prev = false <-> i <> 0%nat /\ prev = ")").
Proof.
  intros Hp. unfold unaryMinusTest. split.
  - intros H. destruct i as [|i]; [discriminate H|]. split; [discriminate|].
    destruct Hp as [-> | [-> | [-> | [-> | [-> | [-> | ->]]]]]];
      solve [discriminate H | reflexivity].
  - intros [Hi ->]. destruct i as [|i]; [now elim Hi | reflexivity].
Qed.

Lemma tokStep_prevToken (i : nat) (ch : ascii) (st : tokState) :
  isPrevToken (prevToken st) -> isPrevToken (prevToken (tokStep i ch st)).
Proof.
  intros H. unfold tokStep, flushNumber, isOperatorChar.
  destruct (IsDigit ch || isChar ch "."); [exact H|].
  destruct (isChar ch "+") eqn:E1.
  { apply isChar_eq in E1. subst ch. destruct (number st); cbn; unfold isPrevToken; tauto. }
  destruct (isChar ch "-") eqn:E2.
  { apply isChar_eq in E2. subst ch.
    destruct (number st); cbn [orb andb];
      match goal with |- context [unaryMinusTest ?a ?b] => destruct (unaryMinusTest a b) end;
      cbn; solve [exact H | unfold isPrevToken; tauto]. }
  destruct (isChar ch "*") eqn:E3.
  { apply isChar_eq in E3. subst ch. destruct (number st); cbn; unfold isPrevToken; tauto. }
  destruct (isChar ch "/") eqn:E4.
  { apply isChar_eq in E4. subst ch. destruct (number st); cbn; unfold isPrevToken; tauto. }
  cbn [orb].
  destruct (isChar ch "(") eqn:E5.
  { apply isChar_eq in E5. subst ch. destruct (number st); cbn; unfold isPrevToken; tauto. }
  destruct (isChar ch ")") eqn:E6.
  { apply isChar_eq in E6. subst ch. destruct (number st); cbn; unfold isPrevToken; tauto. }
  cbn [orb]. destruct (isChar ch " "); exact H.
Qed.

Lemma tokLoop_prevToken (s : string) :
  forall i st, isPrevToken (prevToken st) -> isPrevToken (prevToken (tokLoop i s st)).
Proof.
  induction s as [|c s IH]; intros i st H; simpl; [exact H|].
  apply IH. now apply tokStep_prevToken.
Qed.

(** Every token is made of digits and of [. + - * / ( )]: these are the
    strings [strconv.ParseFloat] is modelled on.  (A fact of the source
    for ASCII expressions, on which the loop below is the loop of the
    source; a digit outside ASCII would enter a number there.) *)
Lemma allTokenBytes_app (a b : string) :
  allTokenBytes (a ++ b) = allTokenBytes a && allTokenBytes b.
Proof.
  induction a as [|c a IH]; simpl; [reflexivity|].
  now rewrite IH, andb_assoc.
Qed.

Lemma Forall_append (toks : list string) (tok : string) :
  Forall (fun t => allTokenBytes t = true) toks -> allTokenBytes tok = true ->
  Forall (fun t => allTokenBytes t = true) (append toks tok).
Proof.
  intros H Ht. unfold append. apply Forall_app. split; [exact H|].
  constructor; [exact Ht | constructor].
Qed.

Lemma flushNumber_wellFormed (st : tokState) :
  tokensWellFormed st ->
  tokensWellFormed (flushNumber st) /\ number (flushNumber st) = "".
Proof.
  intros [Ht Hn]. unfold flushNumber.
  destruct (number st) as [|c rest] eqn:E.
  - split; [split; [exact Ht | rewrite E; reflexivity] | exact E].
  - split; [split|]; cbn [tokens number]; [|reflexivity..].
    apply Forall_append; [exact Ht | exact Hn].
Qed.

Lemma tokStep_wellFormed (i : nat) (ch : ascii) (st : tokState) :
  tokensWellFormed st -> tokensWellFormed (tokStep i ch st).
Proof.
  intros H. unfold tokStep.
  destruct (IsDigit ch || isChar ch ".") eqn:E0.
  { destruct H as [Ht Hn]. split; [exact Ht|]. cbn [number].
    rewrite allTokenBytes_app, Hn. cbn. unfold isTokenByte.
    apply orb_true_iff in E0 as [-> | ->]; [reflexivity | now rewrite orb_true_r]. }
  destruct (flushNumber_wellFormed st H) as [[Ht Hn] Hempty].
  assert (Hop : forall c, isTokenByte c = true ->
            tokensWellFormed (mkTokState (append (tokens (flushNumber st)) (string_of_rune c))
                                (number (flushNumber st)) (string_of_rune c)
                                (printed (flushNumber st)))).
  { intros c Hc. split; [|exact Hn]. cbn [tokens]. apply Forall_append; [exact Ht|].
    cbn. now rewrite Hc. }
  destruct (isOperatorChar ch) eqn:E1.
  { assert (Hc : isTokenByte ch = true).
    { unfold isOperatorChar in E1. unfold isTokenByte.
      destruct (IsDigit ch), (isChar ch "."), (isChar ch "+"), (isChar ch "-"),
        (isChar ch "*"), (isChar ch "/"); try reflexivity; discriminate E1. }
    destruct (isChar ch "-" && unaryMinusTest i (prevToken (flushNumber st))).
    - split; [exact Ht|]. cbn [number]. rewrite allTokenBytes_app, Hn. cbn. now rewrite Hc.
    - now apply Hop. }
  destruct (isChar ch "(" || isChar ch ")") eqn:E2.
  { assert (Hc : isTokenByte ch = true).
    { unfold isTokenByte.
      apply orb_true_iff in E2 as [-> | ->]; now rewrite ?orb_true_r. }
    split; [|exact Hn]. cbn [tokens]. apply Forall_append; [|cbn; now rewrite Hc].
    destruct (isChar ch "(" && implicitMulTest (tokens (flushNumber st)));
      [now apply Forall_append | exact Ht]. }
  destruct (isChar ch " "); exact H.
Qed.

Lemma tokLoop_wellFormed (s : string) :
  forall i st, tokensWellFormed st -> tokensWellFormed (tokLoop i s st).
Proof.
  induction s as [|c s IH]; intros i st H; simpl; [exact H|].
  apply IH. now apply tokStep_wellFormed.
Qed.

Lemma tokenizeExpression_alphabet (expression tok : string) :
  In tok (tokenizeExpression expression) -> allTokenBytes tok = true.
Proof.
  unfold tokenizeExpression, tokenizeRun. intros Hin.
  assert (H0 : tokensWellFormed tokInit) by (split; [constructor | reflexivity]).
  pose proof (tokLoop_wellFormed expression 0 tokInit H0) as H.
  destruct (flushNumber_wellFormed _ H) as [[Ht _] _].
  rewrite Forall_forall in Ht. now apply Ht.
Qed.

Lemma tokStep_minus (i : nat) (st : tokState) :
  tokStep i "-" st =
    let st1 := flushNumber st in
    if unaryMinusTest i (prevToken st1) then
      mkTokState (tokens st1) (number st1 ++ "-") (prevToken st1) (printed st1)
    else
      mkTokState (append (tokens st1) "-") (number st1) "-" (printed st1).
Proof. reflexivity. Qed.

(** A ['-'] written between two numbers with no operator or parenthesis
    before it is taken for a sign: no ["-"] token is emitted. *)
Lemma minus_between_numbers_is_folded (a b : string) :
  allDigits a = true -> a <> "" -> allDigits b = true ->
  tokenizeExpression (a ++ String "-" b) = [a; String "-" b].
Proof.
  intros Ha Hne Hb. unfold tokenizeExpression, tokenizeRun.
  rewrite tokLoop_app, (tokLoop_digits a _ _ Ha).
  cbn [tokLoop tokInit tokens number prevToken printed append].
  rewrite tokStep_minus. cbv zeta.
  destruct a as [|c a]; [now elim Hne|].
  cbn [flushNumber number tokens prevToken printed String.append].
  replace (unaryMinusTest (0 + String.length (String c a)) "") with true
    by (unfold unaryMinusTest; now destruct (Nat.eqb _ 0)).
  rewrite (tokLoop_digits b _ _ Hb).
  reflexivity.
Qed.

(** ** The tree builder: when the parentheses are stripped *)

(** The source looks at the first and at the last token of the range only. *)
Lemma build_strips_on_first_and_last (size : nat) (toks : list string) (start end_ : Z) :
  start < end_ ->
  tokenAt toks start = "(" -> tokenAt toks end_ = ")" ->
  build (S size) toks start end_ = build size toks (start + 1) (end_ - 1).
Proof.
  intros Hlt Hs He. rewrite build_unfold, Hs, He.
  destruct (Z.ltb_spec end_ start); [lia|].
  destruct (Z.eqb_spec start end_); [lia|].
  reflexivity.
Qed.

(** ** The evaluator *)

Lemma evaluate_division_by_zero (Left Right : Node) (l r : float64) :
  isNil Left && isNil Right = false ->
  evaluate Left = Returned l -> evaluate Right = Returned r ->
  eqb r zero = true ->
  evaluate (MkNode "/" Left Right) = Panicked "division by zero".
Proof.
  intros Hleaf Hl Hr Hz. cbn [evaluate]. rewrite Hleaf.
  replace (isNil Left && String.eqb "/" "-") with false by (now rewrite andb_false_r).
  rewrite Hl, Hr. cbn [bind]. cbn [String.eqb Ascii.eqb Bool.eqb]. now rewrite Hz.
Qed.

Lemma performArithmeticCalculation_panics (Expr : string) (stdout : list string)
    (msg : string) :
  validateArithmeticExpression Expr = true ->
  evaluate (buildTree (tokenizeExpression Expr)) = Panicked msg ->
  fst (performArithmeticCalculation Expr stdout) = Panicked msg.
Proof.
  intros Hv He. unfold performArithmeticCalculation. rewrite Hv.
  unfold tokenizeExpression in He. cbn [fst]. now rewrite He.
Qed.

Lemma performArithmeticCalculation_rejects (Expr : string) (stdout : list string) :
  validateArithmeticExpression Expr = false ->
  performArithmeticCalculation Expr stdout = (Returned (false, ""), stdout).
Proof.
  intros Hv. unfold performArithmeticCalculation. now rewrite Hv.
Qed.

(** * The claims *)

(** C1 (the source departs from it).  The tokenizer takes the ['-'] of
    ["3-2"], which follows a number, for a sign: the tokens are ["3"] and
    ["-2"], and no ["-"] operator token is emitted; the same happens to
    both ['-'] of ["8-3-2"].  After a [")"] the ['-'] is an operator. *)
Theorem tokenize_minus_after_number :
  validateArithmeticExpression "3-2" = true /\
  tokenizeExpression "3-2" = ["3"; "-2"] /\
  tokenizeExpression "8-3-2" = ["8"; "-3"; "-2"] /\
  tokenizeExpression "(3)-2" = ["("; "3"; ")"; "-"; "2"].
Proof. repeat split; reflexivity. Qed.

(** C2 (the source departs from it).  ["8/4/2"] is grouped to the left and
    gives ["1"]; ["8-3-2"] is accepted and gives ["0"], not ["3"]: its
    tokens hold no operator, so that the tree is [nil]. *)
Theorem compute_same_precedence_chains :
  compute "8/4/2" = Returned (true, "1") /\
  buildTree (tokenizeExpression "8/4/2") =
    MkNode "/" (MkNode "/" (leaf "8") (leaf "4")) (leaf "2") /\
  buildTree (tokenizeExpression "8-3-2") = NilNode /\
  compute "8-3-2" = Returned (true, "0").
Proof. repeat split; vm_compute; reflexivity. Qed.

(** C3 (the source departs from it).  The range of ["(1)+(2)"] begins with
    ["("] and ends with [")"], and the builder strips them although they do
    not match each other; what is left has no operator outside
    parentheses, the tree is [nil] and the result ["0"], not ["3"]. *)
Theorem build_strips_unmatched_parentheses :
  tokenizeExpression "(1)+(2)" = ["("; "1"; ")"; "+"; "("; "2"; ")"] /\
  build 7 ["("; "1"; ")"; "+"; "("; "2"; ")"] 0 6 =
    build 6 ["("; "1"; ")"; "+"; "("; "2"; ")"] 1 5 /\
  buildTree (tokenizeExpression "(1)+(2)") = NilNode /\
  compute "(1)+(2)" = Returned (true, "0").
Proof. repeat split; vm_compute; reflexivity. Qed.

(** C4, counterexample.  [compute "5/0"] does not return [valid = false]:
    it does not return at all, the panic of [evaluate] leaves it. *)
Lemma compute_division_by_zero_does_not_return :
  compute "5/0" = Panicked "division by zero" /\
  ~ (exists result, compute "5/0" = Returned (false, result)).
Proof.
  split; [vm_compute; reflexivity|].
  intros [result H]. vm_compute in H. discriminate H.
Qed.

(** C4, as amended.  A division whose right operand is equal to zero (the
    left operand having been evaluated) panics with ["division by zero"]
    instead of giving an infinity or a NaN; [performArithmeticCalculation]
    recovers from no panic of [evaluate], so that the panic is the outcome
    of the call: this is the outcome for ["5/0"]. *)
Theorem division_by_zero_panics :
  (forall (Left Right : Node) (l r : float64),
      isNil Left && isNil Right = false ->
      evaluate Left = Returned l -> evaluate Right = Returned r ->
      eqb r zero = true ->
      evaluate (MkNode "/" Left Right) = Panicked "division by zero") /\
  (forall (Expr : string) (stdout : list string) (msg : string),
      validateArithmeticExpression Expr = true ->
      evaluate (buildTree (tokenizeExpression Expr)) = Panicked msg ->
      fst (performArithmeticCalculation Expr stdout) = Panicked msg) /\
  compute "5/0" = Panicked "division by zero".
Proof.
  split; [|split].
  - exact evaluate_division_by_zero.
  - exact performArithmeticCalculation_panics.
  - vm_compute. reflexivity.
Qed.

Lemma division_by_zero_panics_witness :
  evaluate (MkNode "/" (leaf "5") (leaf "-0")) = Panicked "division by zero" /\
  fst (performArithmeticCalculation "5/0" ["earlier line"]) =
    Panicked "division by zero".
Proof.
  split.
  - apply (proj1 division_by_zero_panics (leaf "5") (leaf "-0")
             (S754_finite false 5629499534213120 (-50)) (S754_zero true));
      reflexivity.
  - apply (proj1 (proj2 division_by_zero_panics) "5/0" ["earlier line"]);
      reflexivity.
Defined.

(** C5 (the source departs from it).  ["2(3)"] gets the implicit ["*"] and
    gives ["6"].  ["(2)(3)"] gets it too, but its range begins with ["("]
    and ends with [")"]: the builder strips them, finds no operator outside
    parentheses, and the result is ["0"], not ["6"]. *)
Theorem compute_implicit_multiplication :
  tokenizeExpression "2(3)" = ["2"; "*"; "("; "3"; ")"] /\
  compute "2(3)" = Returned (true, "6") /\
  tokenizeExpression "(2)(3)" = ["("; "2"; ")"; "*"; "("; "3"; ")"] /\
  buildTree (tokenizeExpression "(2)(3)") = NilNode /\
  compute "(2)(3)" = Returned (true, "0").
Proof. repeat split; vm_compute; reflexivity. Qed.

(** C6, counterexample.  The validator accepts ["*5"]: for the parser of Go
    a leading star is a unary operator. *)
Lemma validate_accepts_leading_star :
  validateArithmeticExpression "*5" = true /\
  compute "*5" = Returned (true, "0").
Proof. split; vm_compute; reflexivity. Qed.

(** C6, as amended.  The validator rejects ["1++1"], ["(()"], ["5*"] and
    [""], and [compute] returns [valid = false] for each of them. *)
Theorem validate_rejects_malformed :
  validateArithmeticExpression "1++1" = false /\
  validateArithmeticExpression "(()" = false /\
  validateArithmeticExpression "5*" = false /\
  validateArithmeticExpression "" = false /\
  compute "1++1" = Returned (false, "") /\
  compute "(()" = Returned (false, "") /\
  compute "5*" = Returned (false, "") /\
  compute "" = Returned (false, "").
Proof. repeat split; vm_compute; reflexivity. Qed.

(** C7, counterexample.  A tab is outside the set of the claim, and
    ["1\t"] is accepted: the class of the pattern has [\s]. *)
Lemma compute_accepts_tab :
  In "009"%char (list_ascii_of_string oneTab) /\
  inSpecSet "009" = false /\
  compute oneTab = Returned (true, "1").
Proof.
  split; [right; left; reflexivity|]. split; vm_compute; reflexivity.
Qed.

(** C7, as amended.  For every input with a character outside the class of
    the pattern (the digits, [. + - * / ( )], the space, and the tab, line
    feed, form feed and carriage return that [\s] adds), the call
    returns [valid = false] with the empty result, and writes nothing. *)
Theorem compute_rejects_foreign_characters (Expr : string) (c : ascii)
    (stdout : list string) :
  In c (list_ascii_of_string Expr) -> inClass c = false ->
  performArithmeticCalculation Expr stdout = (Returned (false, ""), stdout).
Proof.
  intros Hin Hc. apply performArithmeticCalculation_rejects.
  exact (validate_rejects_outside_class Expr c Hin Hc).
Qed.

Lemma compute_rejects_foreign_characters_witness :
  performArithmeticCalculation "2+x" [] = (Returned (false, ""), []).
Proof.
  apply (compute_rejects_foreign_characters "2+x" "x" []).
  - simpl. right. right. left. reflexivity.
  - reflexivity.
Defined.

(** C8 (the source departs from it).  On the two examples precedence is
    honored: ["2+3*4"] is split at the ["+"] and gives ["14"], ["(2+3)*4"]
    is split at the ["*"] and gives ["20"].  It is not in general.  In
    ["10-2*3"] the ['-'] follows a number and is taken for a sign: the
    tokens are [10], [-2], ["*"], [3], the left operand of the ["*"] is
    [nil] and the result is ["0"], not ["4"] (["6-4/2"] gives ["0"] alike).
    In ["(2+3)*(4+5)"] the first ["("] and the last [")"] are stripped
    although they do not match: the ["*"] is then inside parentheses, the
    split is at the last ["+"], and the result is ["7"], not ["45"]. *)
Theorem compute_precedence_departures :
  compute "2+3*4" = Returned (true, "14") /\
  compute "(2+3)*4" = Returned (true, "20") /\
  validateArithmeticExpression "10-2*3" = true /\
  tokenizeExpression "10-2*3" = ["10"; "-2"; "*"; "3"] /\
  buildTree (tokenizeExpression "10-2*3") = MkNode "*" NilNode (leaf "3") /\
  compute "10-2*3" = Returned (true, "0") /\
  compute "6-4/2" = Returned (true, "0") /\
  validateArithmeticExpression "(2+3)*(4+5)" = true /\
  buildTree (tokenizeExpression "(2+3)*(4+5)") =
    MkNode "+" (MkNode "+" (leaf "2") NilNode) (leaf "5") /\
  compute "(2+3)*(4+5)" = Returned (true, "7").
Proof. repeat split; vm_compute; reflexivity. Qed.

(** C10.  [evaluate] gives 0 for [nil].  The validator accepts ["+5"] and
    ["*5"], whose operator has no left operand: the builder gives the
    operator node a [nil] left child, and the results are those of [0+5]
    and [0*5].  It accepts ["3-2"] too, for which the tree itself is [nil]
    and the result ["0"]. *)
Theorem nil_operand_counts_as_zero :
  evaluate NilNode = Returned zero /\
  validateArithmeticExpression "+5" = true /\
  buildTree (tokenizeExpression "+5") = MkNode "+" NilNode (leaf "5") /\
  compute "+5" = Returned (true, "5") /\
  validateArithmeticExpression "*5" = true /\
  buildTree (tokenizeExpression "*5") = MkNode "*" NilNode (leaf "5") /\
  compute "*5" = Returned (true, "0") /\
  validateArithmeticExpression "3-2" = true /\
  buildTree (tokenizeExpression "3-2") = NilNode /\
  compute "3-2" = Returned (true, "0").
Proof. repeat split; vm_compute; reflexivity. Qed.

(** * Further properties of the code *)

(** ** The tokenizer *)

Lemma flushNumber_prevToken (st : tokState) :
  prevToken (flushNumber st) = prevToken st.
Proof. unfold flushNumber. now destruct (number st). Qed.

Lemma flushNumber_printed (st : tokState) :
  printed (flushNumber st) = printed st.
Proof. unfold flushNumber. now destruct (number st). Qed.

(** The test [i == 0] never decides: at index 0 [prevToken] is still
    empty, which the test accepts by itself. *)
Lemma unaryMinusTest_index (i j : nat) (prev : string) :
  (i = 0%nat -> prev = "") -> (j = 0%nat -> prev = "") ->
  unaryMinusTest i prev = unaryMinusTest j prev.
Proof.
  intros Hi Hj. unfold unaryMinusTest.
  destruct i as [|i], j as [|j]; try reflexivity.
  - rewrite (Hi eq_refl). reflexivity.
  - rewrite (Hj eq_refl). reflexivity.
Qed.

Lemma tokStep_index (i j : nat) (ch : ascii) (st : tokState) :
  (i = 0%nat -> prevToken st = "") -> (j = 0%nat -> prevToken st = "") ->
  tokStep i ch st = tokStep j ch st.
Proof.
  intros Hi Hj. unfold tokStep.
  rewrite (unaryMinusTest_index i j (prevToken (flushNumber st)));
    [reflexivity | rewrite flushNumber_prevToken; assumption..].
Qed.

Lemma tokLoop_index (s : string) :
  forall i j st,
    (i = 0%nat -> prevToken st = "") -> (j = 0%nat -> prevToken st = "") ->
    tokLoop i s st = tokLoop j s st.
Proof.
  induction s as [|c s IH]; intros i j st Hi Hj; [reflexivity|].
  cbn [tokLoop]. rewrite (tokStep_index i j c st Hi Hj).
  apply IH; intros H; discriminate H.
Qed.

Lemma tokLoop_removeSpaces (s : string) :
  forall i st, (i = 0%nat -> prevToken st = "") ->
    tokLoop i (removeSpaces s) st = tokLoop i s st.
Proof.
  induction s as [|c s IH]; intros i st Hi; [reflexivity|].
  cbn [removeSpaces tokLoop]. destruct (isChar c " ") eqn:E.
  - apply isChar_eq in E. subst c.
    replace (tokStep i " " st) with st by reflexivity.
    rewrite (IH i st Hi). apply tokLoop_index; [exact Hi | intros H; discriminate H].
  - cbn [tokLoop]. apply IH. intros H; discriminate H.
Qed.

Lemma removeSpaces_idempotent (s : string) :
  removeSpaces (removeSpaces s) = removeSpaces s.
Proof.
  induction s as [|c s IH]; [reflexivity|].
  cbn [removeSpaces]. destruct (isChar c " ") eqn:E; [exact IH|].
  cbn [removeSpaces]. now rewrite E, IH.
Qed.

(** X1.  Spaces do not count for the tokenizer: for an ASCII expression,
    the tokens, and the lines written, are those of the expression
    without its spaces.  (The index [i] of the loop is only compared with
    0, where [prevToken] is empty and decides alone.) *)
Theorem tokenize_ignores_spaces (expression : string) :
  isASCII expression = true ->
  tokenizeExpression (removeSpaces expression) = tokenizeExpression expression /\
  printed (tokenizeRun (removeSpaces expression)) = printed (tokenizeRun expression).
Proof.
  intros _. unfold tokenizeExpression, tokenizeRun.
  now rewrite tokLoop_removeSpaces.
Qed.

Lemma tokenize_ignores_spaces_witness :
  tokenizeExpression (removeSpaces " - 1 2 ( 3 x)") =
    tokenizeExpression " - 1 2 ( 3 x)" /\
  printed (tokenizeRun (removeSpaces " - 1 2 ( 3 x)")) =
    printed (tokenizeRun " - 1 2 ( 3 x)").
Proof.
  apply (tokenize_ignores_spaces " - 1 2 ( 3 x)"). reflexivity.
Defined.

(** X2.  Spaces do not count for a call: the outcome and the output of
    [performArithmeticCalculation] are those for the expression without
    its spaces. *)
Theorem compute_ignores_spaces (Expr : string) (stdout : list string) :
  performArithmeticCalculation (removeSpaces Expr) stdout =
    performArithmeticCalculation Expr stdout.
Proof.
  unfold performArithmeticCalculation, validateArithmeticExpression, tokenizeRun.
  rewrite removeSpaces_idempotent, tokLoop_removeSpaces by reflexivity.
  reflexivity.
Qed.

(** No token is empty. *)
Lemma flushNumber_nonEmpty (st : tokState) :
  Forall (fun tok => tok <> "") (tokens st) ->
  Forall (fun tok => tok <> "") (tokens (flushNumber st)).
Proof.
  intros H. unfold flushNumber. destruct (number st) as [|c rest] eqn:E; [exact H|].
  cbn [tokens]. unfold append. apply Forall_app. split; [exact H|].
  constructor; [discriminate | constructor].
Qed.

Lemma tokStep_nonEmpty (i : nat) (ch : ascii) (st : tokState) :
  Forall (fun tok => tok <> "") (tokens st) ->
  Forall (fun tok => tok <> "") (tokens (tokStep i ch st)).
Proof.
  intros H. pose proof (flushNumber_nonEmpty st H) as Hf.
  assert (Happ : forall toks tok, Forall (fun t => t <> "") toks -> tok <> "" ->
                   Forall (fun t => t <> "") (append toks tok)).
  { intros toks tok Ht Hn. unfold append. apply Forall_app. split; [exact Ht|].
    constructor; [exact Hn | constructor]. }
  unfold tokStep.
  destruct (IsDigit ch || isChar ch "."); [exact H|].
  destruct (isOperatorChar ch).
  { destruct (isChar ch "-" && unaryMinusTest i (prevToken (flushNumber st)));
      [exact Hf | apply Happ; [exact Hf | discriminate]]. }
  destruct (isChar ch "(" || isChar ch ")").
  { cbn [tokens]. apply Happ; [|discriminate].
    destruct (isChar ch "(" && implicitMulTest (tokens (flushNumber st)));
      [apply Happ; [exact Hf | discriminate] | exact Hf]. }
  destruct (isChar ch " "); exact H.
Qed.

Lemma tokLoop_nonEmpty (s : string) :
  forall i st, Forall (fun tok => tok <> "") (tokens st) ->
    Forall (fun tok => tok <> "") (tokens (tokLoop i s st)).
Proof.
  induction s as [|c s IH]; intros i st H; [exact H|].
  cbn [tokLoop]. apply IH. now apply tokStep_nonEmpty.
Qed.

(** X3.  Every token the tokenizer returns for an ASCII expression is a
    non-empty string of digits and of [. + - * / ( )]: a space or an
    unexpected character never enters a token, and
    [lastToken[len(lastToken)-1]] is always defined. *)
Theorem tokens_are_nonempty_and_clean (expression tok : string) :
  isASCII expression = true ->
  In tok (tokenizeExpression expression) ->
  tok <> "" /\ allTokenBytes tok = true.
Proof.
  intros _ Hin. split; [|exact (tokenizeExpression_alphabet expression tok Hin)].
  unfold tokenizeExpression, tokenizeRun in Hin.
  assert (H : Forall (fun t => t <> "")
                (tokens (flushNumber (tokLoop 0 expression tokInit)))).
  { apply flushNumber_nonEmpty, tokLoop_nonEmpty. constructor. }
  rewrite Forall_forall in H. now apply H.
Qed.

Lemma tokens_are_nonempty_and_clean_witness :
  "-2.5" <> "" /\ allTokenBytes "-2.5" = true.
Proof.
  apply (tokens_are_nonempty_and_clean "7 x (-2.5)" "-2.5"); [reflexivity|].
  vm_compute. right. right. right. left. reflexivity.
Defined.

(** The tokens spell the input. *)
Lemma joinTokens_append (toks : list string) (tok : string) :
  joinTokens (append toks tok) = joinTokens toks ++ tok.
Proof.
  unfold append. induction toks as [|t toks IH]; cbn.
  - now rewrite append_empty_r.
  - now rewrite IH, append_assoc_string.
Qed.

Lemma flushNumber_number (st : tokState) : number (flushNumber st) = "".
Proof.
  unfold flushNumber. destruct (number st) eqn:E; [exact E | reflexivity].
Qed.

Lemma flushNumber_join (st : tokState) :
  joinTokens (tokens (flushNumber st)) ++ number (flushNumber st) =
  joinTokens (tokens st) ++ number st.
Proof.
  unfold flushNumber. destruct (number st) as [|c rest] eqn:E.
  - now rewrite E.
  - cbn [tokens number]. now rewrite joinTokens_append, append_empty_r.
Qed.

Lemma tokStep_join (i : nat) (ch : ascii) (st : tokState) :
  isChar ch "(" = false ->
  joinTokens (tokens (tokStep i ch st)) ++ number (tokStep i ch st) =
  (joinTokens (tokens st) ++ number st) ++ tokenBytes (string_of_rune ch).
Proof.
  intros Hp. pose proof (flushNumber_join st) as Hf.
  assert (Hop : forall c : ascii,
            joinTokens (append (tokens (flushNumber st)) (string_of_rune c)) ++
              number (flushNumber st) =
            (joinTokens (tokens st) ++ number st) ++ string_of_rune c).
  { intros c. rewrite joinTokens_append, <- Hf.
    now rewrite (flushNumber_number st), !append_empty_r. }
  unfold tokStep. cbn [tokenBytes string_of_rune]. unfold isTokenByte. rewrite Hp.
  destruct (IsDigit ch) eqn:E0; cbn [orb].
  { cbn [tokens number]. now rewrite append_assoc_string. }
  destruct (isChar ch ".") eqn:E1; cbn [orb].
  { cbn [tokens number]. now rewrite append_assoc_string. }
  unfold isOperatorChar.
  destruct (isChar ch "+") eqn:E2.
  { apply isChar_eq in E2. subst ch. exact (Hop "+"%char). }
  destruct (isChar ch "-") eqn:E3.
  { apply isChar_eq in E3. subst ch. cbn [orb andb].
    destruct (unaryMinusTest i (prevToken (flushNumber st))); cbn [tokens number].
    - now rewrite <- Hf, !append_assoc_string.
    - exact (Hop "-"%char). }
  destruct (isChar ch "*") eqn:E4.
  { apply isChar_eq in E4. subst ch. exact (Hop "*"%char). }
  destruct (isChar ch "/") eqn:E5.
  { apply isChar_eq in E5. subst ch. exact (Hop "/"%char). }
  cbn [orb andb].
  destruct (isChar ch ")") eqn:E6.
  { apply isChar_eq in E6. subst ch. exact (Hop ")"%char). }
  destruct (isChar ch " "); cbn [tokens number]; now rewrite append_empty_r.
Qed.

Lemma tokenBytes_app (a b : string) :
  tokenBytes (a ++ b) = tokenBytes a ++ tokenBytes b.
Proof.
  induction a as [|c a IH]; [reflexivity|].
  cbn. destruct (isTokenByte c); cbn; now rewrite IH.
Qed.

Lemma tokLoop_join (s : string) :
  forall i st, countChar "(" s = 0%nat ->
    joinTokens (tokens (tokLoop i s st)) ++ number (tokLoop i s st) =
    (joinTokens (tokens st) ++ number st) ++ tokenBytes s.
Proof.
  induction s as [|c s IH]; intros i st H.
  - cbn. now rewrite append_empty_r.
  - cbn [countChar] in H. destruct (isChar c "(") eqn:E; [discriminate H|].
    cbn [tokLoop]. rewrite (IH _ _ H), (tokStep_join i c st E).
    rewrite append_assoc_string. f_equal.
    change (String c s) with (string_of_rune c ++ s). now rewrite tokenBytes_app.
Qed.

(** X4.  For an ASCII expression without ['('] (no ["*"] is inserted
    then), the tokens put end to end are the expression without its spaces
    and unexpected characters: nothing is lost, reordered or invented. *)
Theorem tokens_spell_the_input (expression : string) :
  isASCII expression = true ->
  countChar "(" expression = 0%nat ->
  joinTokens (tokenizeExpression expression) = tokenBytes expression.
Proof.
  intros _ H. unfold tokenizeExpression, tokenizeRun.
  pose proof (flushNumber_join (tokLoop 0 expression tokInit)) as Hf.
  destruct (flushNumber_wellFormed (tokLoop 0 expression tokInit)) as [_ Hempty].
  { apply tokLoop_wellFormed. split; [constructor | reflexivity]. }
  rewrite Hempty, append_empty_r in Hf. rewrite Hf.
  now rewrite (tokLoop_join expression 0 tokInit H).
Qed.

Lemma tokens_spell_the_input_witness :
  joinTokens (tokenizeExpression "1 - 2.5 * x3") = "1-2.5*3".
Proof.
  apply (tokens_spell_the_input "1 - 2.5 * x3"); reflexivity.
Defined.

(** Nothing is written for a character the specification lists. *)
Lemma tokStep_printed (i : nat) (ch : ascii) (st : tokState) :
  inSpecSet ch = true -> printed (tokStep i ch st) = printed st.
Proof.
  intros H. pose proof (flushNumber_printed st) as Hf. unfold tokStep.
  destruct (IsDigit ch || isChar ch ".") eqn:E0; [reflexivity|].
  destruct (isOperatorChar ch) eqn:E1.
  { destruct (isChar ch "-" && unaryMinusTest i (prevToken (flushNumber st))); exact Hf. }
  destruct (isChar ch "(" || isChar ch ")") eqn:E2; [exact Hf|].
  destruct (isChar ch " ") eqn:E3; [reflexivity|].
  exfalso. unfold inSpecSet, isOperatorChar in *. rewrite E3 in H.
  destruct (IsDigit ch), (isChar ch "."), (isChar ch "+"), (isChar ch "-"),
    (isChar ch "*"), (isChar ch "/"), (isChar ch "("), (isChar ch ")");
    cbn in *; congruence.
Qed.

Lemma tokLoop_printed (s : string) :
  forall i st, allInSpecSet s = true -> printed (tokLoop i s st) = printed st.
Proof.
  induction s as [|c s IH]; intros i st H; [reflexivity|].
  cbn [allInSpecSet] in H. apply andb_true_iff in H as [Hc Hs].
  cbn [tokLoop]. now rewrite (IH _ _ Hs), tokStep_printed.
Qed.

(** X5.  A call on an expression made of the digits, [. + - * / ( )] and
    spaces writes nothing to the standard output, whatever its outcome. *)
Theorem compute_is_silent (Expr : string) (stdout : list string) :
  allInSpecSet Expr = true ->
  snd (performArithmeticCalculation Expr stdout) = stdout.
Proof.
  intros H. unfold performArithmeticCalculation.
  destruct (validateArithmeticExpression Expr); [|reflexivity].
  cbn [snd]. unfold tokenizeRun.
  rewrite flushNumber_printed, (tokLoop_printed Expr 0 tokInit H).
  apply app_nil_r.
Qed.

Lemma compute_is_silent_witness :
  snd (performArithmeticCalculation "5 / (3 - 3)" ["earlier line"]) = ["earlier line"].
Proof.
  apply (compute_is_silent "5 / (3 - 3)" ["earlier line"]). reflexivity.
Defined.

(** ** The tree builder and the evaluator *)

Lemma findOperator_is_operator (toks : list string) (n : nat) :
  forall i minPrecedence opIndex parens,
    (opIndex = -1 \/ precedence (tokenAt toks opIndex) <> None) ->
    findOperator toks n i minPrecedence opIndex parens = -1 \/
    precedence (tokenAt toks (findOperator toks n i minPrecedence opIndex parens)) <> None.
Proof.
  induction n as [|n IH]; intros i minPrecedence opIndex parens Hop; [exact Hop|].
  cbn [findOperator].
  destruct (String.eqb (tokenAt toks i) "("); [now apply IH|].
  destruct (String.eqb (tokenAt toks i) ")"); [now apply IH|].
  destruct (precedence (tokenAt toks i)) as [p|] eqn:E; [|now apply IH].
  destruct ((parens =? 0) && (p <=? minPrecedence)); apply IH; [|exact Hop].
  right. rewrite E. discriminate.
Qed.

Lemma build_operatorTagged (toks : list string) (size : nat) :
  forall start end_, operatorTagged (build size toks start end_) = true.
Proof.
  induction size as [|size IH]; intros start end_; [reflexivity|].
  rewrite build_unfold.
  destruct (end_ <? start); [reflexivity|].
  destruct ((start =? end_) && parsesAsFloat (tokenAt toks start)); [reflexivity|].
  destruct (String.eqb (tokenAt toks start) "-" && (start + 1 <=? end_)
            && parsesAsFloat (tokenAt toks (start + 1))); [reflexivity|].
  destruct (String.eqb (tokenAt toks start) "(" && String.eqb (tokenAt toks end_) ")");
    [apply IH|].
  cbv zeta.
  destruct (findOperator_is_operator toks (Z.to_nat (end_ - start + 1))
              start 3 (-1) 0 (or_introl eq_refl)) as [E | E].
  - rewrite E. reflexivity.
  - destruct (negb _); [|reflexivity].
    cbn [operatorTagged]. rewrite !IH.
    destruct (precedence _); [now rewrite orb_true_r | now elim E].
Qed.

Lemma buildTree_operatorTagged (toks : list string) :
  operatorTagged (buildTree toks) = true.
Proof.
  unfold buildTree. destruct toks; [reflexivity | apply build_operatorTagged].
Qed.

Lemma precedence_Some (Value : string) (p : Z) :
  precedence Value = Some p ->
  Value = "+" \/ Value = "-" \/ Value = "*" \/ Value = "/".
Proof.
  unfold precedence.
  destruct (String.eqb_spec Value "+"); [tauto|].
  destruct (String.eqb_spec Value "-"); [tauto|].
  destruct (String.eqb_spec Value "*"); [tauto|].
  destruct (String.eqb_spec Value "/"); [tauto | discriminate].
Qed.

Lemma evaluate_panic_messages (node : Node) :
  operatorTagged node = true ->
  forall msg, evaluate node = Panicked msg ->
    msg = "division by zero" \/ exists Value, msg = "Invalid number: " ++ Value.
Proof.
  induction node as [|Value Left IHl Right IHr]; intros Ht msg H; [discriminate H|].
  cbn [evaluate] in H. cbn [operatorTagged] in Ht.
  destruct (isNil Left && isNil Right) eqn:Eleaf.
  { destruct (ParseFloat Value); [discriminate H|].
    right. exists Value. now injection H as <-. }
  cbn [orb] in Ht. apply andb_true_iff in Ht as [Ht Htr].
  apply andb_true_iff in Ht as [Hp Htl].
  destruct (isNil Left && String.eqb Value "-").
  { destruct (evaluate Right) as [r | m] eqn:Er; cbn [bind] in H; [discriminate H|].
    injection H as <-. now apply IHr. }
  destruct (evaluate Left) as [l | m] eqn:El; cbn [bind] in H;
    [|injection H as <-; now apply IHl].
  destruct (evaluate Right) as [r | m] eqn:Er; cbn [bind] in H;
    [|injection H as <-; now apply IHr].
  destruct (precedence Value) as [p|] eqn:Ep; [|discriminate Hp].
  destruct (precedence_Some Value p Ep) as [-> | [-> | [-> | ->]]];
    cbn in H; try discriminate H.
  destruct (eqb r zero); [|discriminate H].
  left. now injection H as <-.
Qed.

(** X6.  A call that panics does so for a division by zero or for a leaf
    that is no number: the trees of [buildTree] give an operator to every
    node with a child, so that ["unknown operator"] never occurs. *)
Theorem compute_panic_messages (Expr : string) (stdout : list string) (msg : string) :
  fst (performArithmeticCalculation Expr stdout) = Panicked msg ->
  msg = "division by zero" \/ exists Value, msg = "Invalid number: " ++ Value.
Proof.
  unfold performArithmeticCalculation.
  destruct (validateArithmeticExpression Expr); [|discriminate].
  cbn [fst]. intros H.
  apply (evaluate_panic_messages (buildTree (tokens (tokenizeRun Expr)))
           (buildTree_operatorTagged _)).
  destruct (evaluate (buildTree (tokens (tokenizeRun Expr)))); [discriminate H|].
  cbn [bind] in H. injection H as ->. reflexivity.
Qed.

Lemma compute_panic_messages_witness :
  "Invalid number: -" = "division by zero" \/
  exists Value, "Invalid number: -" = "Invalid number: " ++ Value.
Proof.
  apply (compute_panic_messages "-+5" [] "Invalid number: -").
  vm_compute. reflexivity.
Defined.

(** ** The result string *)

Lemma decimalString_nonEmpty (n : Z) : decimalString n <> "".
Proof.
  unfold decimalString, NilZero.string_of_uint.
  destruct (N.to_uint (Z.to_N n)); discriminate.
Qed.

Lemma append_nonEmpty_l (a b : string) : a <> "" -> a ++ b <> "".
Proof. destruct a; [congruence | discriminate]. Qed.

Lemma append_nonEmpty_r (a b : string) : b <> "" -> a ++ b <> "".
Proof. destruct a; [now cbn | discriminate]. Qed.

Lemma FormatFloat_nonEmpty (f : float64) : FormatFloat f <> "".
Proof.
  destruct f as [s | s | | s m e]; cbn [FormatFloat]; try (destruct s; discriminate).
  - discriminate.
  - destruct (shortestDecimal m e) as [c sc].
    apply append_nonEmpty_r. unfold fmtDecimal.
    destruct (trimFraction (Z.to_nat (- sc)) c sc) as [c' s'].
    destruct (0 <=? s'); [apply decimalString_nonEmpty|].
    apply append_nonEmpty_l, decimalString_nonEmpty.
Qed.

(** X7.  A call that returns gives an empty result exactly when it gives
    [valid = false]: the page never shows a valid expression without a
    result, nor a result for an invalid one. *)
Theorem result_is_empty_iff_invalid (Expr : string) (stdout : list string)
    (valid : bool) (result : string) :
  fst (performArithmeticCalculation Expr stdout) = Returned (valid, result) ->
  (valid = false <-> result = "").
Proof.
  unfold performArithmeticCalculation.
  destruct (validateArithmeticExpression Expr); cbn [fst].
  - destruct (evaluate (buildTree (tokens (tokenizeRun Expr)))) as [val | m];
      cbn [bind]; [|discriminate].
    intros H. injection H as <- <-. split; [discriminate|].
    intros E. now elim (FormatFloat_nonEmpty (roundFloat val 4)).
  - intros H. injection H as <- <-. split; reflexivity.
Qed.

Lemma result_is_empty_iff_invalid_witness :
  (true = false <-> "0.3333" = "").
Proof.
  apply (result_is_empty_iff_invalid "1/3" []). vm_compute. reflexivity.
Defined.

(** ** Values that are no numbers *)

Lemma roundFloat_infinity (s : bool) :
  roundFloat (S754_infinity s) 4 = S754_infinity s.
Proof. destruct s; vm_compute; reflexivity. Qed.

Lemma roundFloat_nan : roundFloat S754_nan 4 = S754_nan.
Proof. vm_compute. reflexivity. Qed.

(** X8.  Nothing checks that the value is finite.  An evaluation that
    overflows to an infinity is returned as the valid result ["+Inf"] or
    ["-Inf"], and one that gives a NaN as the valid result ["NaN"]. *)
Theorem non_finite_values_are_results (Expr : string) (stdout : list string)
    (val : float64) :
  validateArithmeticExpression Expr = true ->
  evaluate (buildTree (tokenizeExpression Expr)) = Returned val ->
  isInf val || isNaN val = true ->
  fst (performArithmeticCalculation Expr stdout) =
    Returned (true, match val with
                    | S754_infinity true => "-Inf"
                    | S754_infinity false => "+Inf"
                    | _ => "NaN"
                    end).
Proof.
  intros Hv He Hn. unfold performArithmeticCalculation. rewrite Hv. cbn [fst].
  unfold tokenizeExpression in He. rewrite He. cbn [bind].
  destruct val as [s | s | | s m e]; try discriminate Hn.
  - rewrite roundFloat_infinity. now destruct s.
  - now rewrite roundFloat_nan.
Qed.

Lemma non_finite_values_are_results_witness :
  fst (performArithmeticCalculation overflowing []) = Returned (true, "+Inf") /\
  fst (performArithmeticCalculation undefinedValue []) = Returned (true, "NaN").
Proof.
  split.
  - apply (non_finite_values_are_results overflowing [] (S754_infinity false));
      vm_compute; reflexivity.
  - apply (non_finite_values_are_results undefinedValue [] S754_nan);
      vm_compute; reflexivity.
Defined.

(** ** The tree builder on number tokens *)

Lemma number_token (tok : string) :
  parsesAsFloat tok = true ->
  String.eqb tok "(" = false /\ String.eqb tok ")" = false /\
  String.eqb tok "-" = false /\ precedence tok = None.
Proof.
  intros H.
  assert (Hne : forall op, parsesAsFloat op = false -> String.eqb tok op = false).
  { intros op Hop. destruct (String.eqb_spec tok op) as [-> | _]; [congruence | reflexivity]. }
  unfold precedence.
  rewrite (Hne "(" eq_refl), (Hne ")" eq_refl), (Hne "-" eq_refl),
    (Hne "+" eq_refl), (Hne "*" eq_refl), (Hne "/" eq_refl).
  repeat split; reflexivity.
Qed.

Lemma precedence_values (tok : string) (p : Z) :
  precedence tok = Some p ->
  (p = 1 \/ p = 2) /\ String.eqb tok "(" = false /\ String.eqb tok ")" = false.
Proof.
  intros H. destruct (precedence_Some tok p H) as [-> | [-> | [-> | ->]]];
    injection H as <-; repeat split; auto.
Qed.

Lemma findOperator_number (toks : list string) (n : nat) (i minPrecedence opIndex parens : Z)
    (tok : string) :
  tokenAt toks i = tok -> parsesAsFloat tok = true ->
  findOperator toks (S n) i minPrecedence opIndex parens =
    findOperator toks n (i + 1) minPrecedence opIndex parens.
Proof.
  intros Ht Hn. destruct (number_token tok Hn) as (H1 & H2 & _ & H4).
  cbn [findOperator]. now rewrite Ht, H1, H2, H4.
Qed.

Lemma findOperator_operator (toks : list string) (n : nat) (i minPrecedence opIndex : Z)
    (tok : string) (p : Z) :
  tokenAt toks i = tok -> precedence tok = Some p ->
  findOperator toks (S n) i minPrecedence opIndex 0 =
    if p <=? minPrecedence then findOperator toks n (i + 1) p i 0
    else findOperator toks n (i + 1) minPrecedence opIndex 0.
Proof.
  intros Ht Hp. destruct (precedence_values tok p Hp) as (_ & H1 & H2).
  cbn [findOperator]. rewrite Ht, H1, H2, Hp. reflexivity.
Qed.

Lemma findOperator_open (toks : list string) (n : nat) (i minPrecedence opIndex parens : Z) :
  tokenAt toks i = "(" ->
  findOperator toks (S n) i minPrecedence opIndex parens =
    findOperator toks n (i + 1) minPrecedence opIndex (parens + 1).
Proof. intros Ht. cbn [findOperator]. now rewrite Ht. Qed.

Lemma findOperator_close (toks : list string) (n : nat) (i minPrecedence opIndex parens : Z) :
  tokenAt toks i = ")" ->
  findOperator toks (S n) i minPrecedence opIndex parens =
    findOperator toks n (i + 1) minPrecedence opIndex (parens - 1).
Proof. intros Ht. cbn [findOperator]. now rewrite Ht. Qed.

Lemma build_number (size : nat) (toks : list string) (start end_ : Z) (tok : string) :
  start = end_ -> tokenAt toks start = tok -> parsesAsFloat tok = true ->
  build (S size) toks start end_ = leaf tok.
Proof.
  intros <- Ht Hn. rewrite build_unfold, Ht, Hn, Z.ltb_irrefl, Z.eqb_refl.
  reflexivity.
Qed.

Lemma build_split (size : nat) (toks : list string) (start end_ opIndex : Z) (tok : string) :
  start < end_ -> tokenAt toks start = tok -> parsesAsFloat tok = true ->
  findOperator toks (Z.to_nat (end_ - start + 1)) start 3 (-1) 0 = opIndex ->
  opIndex <> -1 ->
  build (S size) toks start end_ =
    MkNode (tokenAt toks opIndex)
           (build size toks start (opIndex - 1))
           (build size toks (opIndex + 1) end_).
Proof.
  intros Hlt Ht Hn Hop Hne. destruct (number_token tok Hn) as (H1 & _ & H3 & _).
  rewrite build_unfold, Ht, H1, H3.
  destruct (Z.ltb_spec end_ start); [lia|].
  destruct (Z.eqb_spec start end_); [lia|].
  cbn [andb]. cbv zeta. rewrite Hop.
  destruct (Z.eqb_spec opIndex (-1)); [contradiction | reflexivity].
Qed.

(** X9.  Precedence and grouping to the left.  For number tokens [a], [b],
    [c] and operator tokens [o1], [o2], the tree of [a o1 b o2 c] has [o2]
    at its root, over [a o1 b] and [c], when [o2] binds no tighter than
    [o1], and else [o1] at its root, over [a] and [b o2 c]. *)
Theorem buildTree_three_operands (a b c o1 o2 : string) (p1 p2 : Z) :
  parsesAsFloat a = true -> parsesAsFloat b = true -> parsesAsFloat c = true ->
  precedence o1 = Some p1 -> precedence o2 = Some p2 ->
  buildTree [a; o1; b; o2; c] =
    if p2 <=? p1
    then MkNode o2 (MkNode o1 (leaf a) (leaf b)) (leaf c)
    else MkNode o1 (leaf a) (MkNode o2 (leaf b) (leaf c)).
Proof.
  intros Ha Hb Hc H1 H2.
  pose (toks := [a; o1; b; o2; c]).
  assert (Hp1 : (p1 <=? 3) = true)
    by (destruct (precedence_values o1 p1 H1) as ([-> | ->] & _); reflexivity).
  change (buildTree [a; o1; b; o2; c]) with (build 5 toks 0 4).
  destruct (Z.leb_spec p2 p1) as [Hle | Hgt].
  - rewrite (build_split 4 toks 0 4 3 a); try reflexivity; try assumption; try lia.
    + change (tokenAt toks 3) with o2. f_equal.
      * rewrite (build_split 3 toks 0 (3 - 1) 1 a); try reflexivity; try assumption; try lia.
        -- change (tokenAt toks 1) with o1. f_equal.
           ++ now apply (build_number 2 toks 0 (1 - 1) a).
           ++ now apply (build_number 2 toks (1 + 1) (3 - 1) b).
        -- change (Z.to_nat (3 - 1 - 0 + 1)) with 3%nat.
           rewrite (findOperator_number toks 2 0 3 (-1) 0 a eq_refl Ha).
           rewrite (findOperator_operator toks 1 (0 + 1) 3 (-1) o1 p1 eq_refl H1), Hp1.
           rewrite (findOperator_number toks 0 (0 + 1 + 1) p1 (0 + 1) 0 b eq_refl Hb).
           reflexivity.
      * now apply (build_number 3 toks (3 + 1) 4 c).
    + change (Z.to_nat (4 - 0 + 1)) with 5%nat.
      rewrite (findOperator_number toks 4 0 3 (-1) 0 a eq_refl Ha).
      rewrite (findOperator_operator toks 3 (0 + 1) 3 (-1) o1 p1 eq_refl H1), Hp1.
      rewrite (findOperator_number toks 2 (0 + 1 + 1) p1 (0 + 1) 0 b eq_refl Hb).
      rewrite (findOperator_operator toks 1 (0 + 1 + 1 + 1) p1 (0 + 1) o2 p2 eq_refl H2).
      destruct (Z.leb_spec p2 p1); [|lia].
      rewrite (findOperator_number toks 0 (0 + 1 + 1 + 1 + 1) p2 (0 + 1 + 1 + 1) 0 c eq_refl Hc).
      reflexivity.
  - rewrite (build_split 4 toks 0 4 1 a); try reflexivity; try assumption; try lia.
    + change (tokenAt toks 1) with o1. f_equal.
      * now apply (build_number 3 toks 0 (1 - 1) a).
      * rewrite (build_split 3 toks (1 + 1) 4 3 b); try reflexivity; try assumption; try lia.
        -- change (tokenAt toks 3) with o2. f_equal.
           ++ now apply (build_number 2 toks (1 + 1) (3 - 1) b).
           ++ now apply (build_number 2 toks (3 + 1) 4 c).
        -- change (Z.to_nat (4 - (1 + 1) + 1)) with 3%nat.
           rewrite (findOperator_number toks 2 (1 + 1) 3 (-1) 0 b eq_refl Hb).
           assert (Hp2 : (p2 <=? 3) = true)
             by (destruct (precedence_values o2 p2 H2) as ([-> | ->] & _); reflexivity).
           rewrite (findOperator_operator toks 1 (1 + 1 + 1) 3 (-1) o2 p2 eq_refl H2), Hp2.
           rewrite (findOperator_number toks 0 (1 + 1 + 1 + 1) p2 (1 + 1 + 1) 0 c eq_refl Hc).
           reflexivity.
    + change (Z.to_nat (4 - 0 + 1)) with 5%nat.
      rewrite (findOperator_number toks 4 0 3 (-1) 0 a eq_refl Ha).
      rewrite (findOperator_operator toks 3 (0 + 1) 3 (-1) o1 p1 eq_refl H1), Hp1.
      rewrite (findOperator_number toks 2 (0 + 1 + 1) p1 (0 + 1) 0 b eq_refl Hb).
      rewrite (findOperator_operator toks 1 (0 + 1 + 1 + 1) p1 (0 + 1) o2 p2 eq_refl H2).
      destruct (Z.leb_spec p2 p1); [lia|].
      rewrite (findOperator_number toks 0 (0 + 1 + 1 + 1 + 1) p1 (0 + 1) 0 c eq_refl Hc).
      reflexivity.
Qed.

Lemma buildTree_three_operands_witness :
  buildTree ["1.5"; "*"; "-2"; "-"; "3"] =
    MkNode "-" (MkNode "*" (leaf "1.5") (leaf "-2")) (leaf "3") /\
  buildTree ["1.5"; "-"; "-2"; "/"; "3"] =
    MkNode "-" (leaf "1.5") (MkNode "/" (leaf "-2") (leaf "3")).
Proof.
  split.
  - apply (buildTree_three_operands "1.5" "-2" "3" "*" "-" 2 1); reflexivity.
  - apply (buildTree_three_operands "1.5" "-2" "3" "-" "/" 1 2); reflexivity.
Defined.

(** ** Implicit multiplication *)

Lemma lastByte_digits (s : string) :
  allDigits s = true -> s <> "" -> exists c, lastByte s = Some c /\ IsDigit c = true.
Proof.
  induction s as [|c s IH]; intros H Hne; [now elim Hne|].
  cbn [allDigits] in H. apply andb_true_iff in H as [Hc Hs].
  destruct s as [|d s]; [exists c; split; [reflexivity | exact Hc]|].
  destruct (IH Hs) as (x & Hx & Hd); [discriminate|].
  exists x. split; [exact Hx | exact Hd].
Qed.

Lemma tokenize_number_times_group (a b : string) :
  allDigits a = true -> a <> "" -> allDigits b = true -> b <> "" ->
  tokenizeExpression (a ++ String "(" (b ++ ")")) = [a; "*"; "("; b; ")"].
Proof.
  intros Ha Hna Hb Hnb. unfold tokenizeExpression, tokenizeRun.
  rewrite tokLoop_app, (tokLoop_digits a _ _ Ha).
  cbn [tokLoop tokInit tokens number prevToken printed String.append].
  destruct (lastByte_digits a Ha Hna) as (x & Hx & Hd).
  assert (Hstep : tokStep (0 + String.length a) "("
                    (mkTokState [] a "" []) =
                  mkTokState [a; "*"; "("] "" "(" []).
  { unfold tokStep. cbn [IsDigit isChar isOperatorChar].
    destruct a as [|c a]; [now elim Hna|].
    cbv [flushNumber number tokens prevToken printed append app implicitMulTest List.last].
    rewrite Hx, Hd. reflexivity. }
  rewrite Hstep, tokLoop_app, (tokLoop_digits b _ _ Hb).
  cbn [tokLoop tokens number prevToken printed String.append].
  destruct b as [|d b]; [now elim Hnb|]. reflexivity.
Qed.

(** X10.  A number directly followed by a parenthesized number is their
    product: the tokenizer inserts the ["*"], the builder puts it over the
    two numbers, and the evaluator multiplies them. *)
Theorem implicit_multiplication (a b : string) (x y : float64) :
  allDigits a = true -> allDigits b = true ->
  ParseFloat a = Some x -> ParseFloat b = Some y ->
  tokenizeExpression (a ++ String "(" (b ++ ")")) = [a; "*"; "("; b; ")"] /\
  buildTree (tokenizeExpression (a ++ String "(" (b ++ ")"))) =
    MkNode "*" (leaf a) (leaf b) /\
  evaluate (buildTree (tokenizeExpression (a ++ String "(" (b ++ ")")))) =
    Returned (mul x y).
Proof.
  intros Ha Hb Hx Hy.
  assert (Hna : a <> "") by (intros ->; discriminate Hx).
  assert (Hnb : b <> "") by (intros ->; discriminate Hy).
  assert (Hpa : parsesAsFloat a = true) by (unfold parsesAsFloat; now rewrite Hx).
  assert (Hpb : parsesAsFloat b = true) by (unfold parsesAsFloat; now rewrite Hy).
  rewrite (tokenize_number_times_group a b Ha Hna Hb Hnb).
  pose (toks := [a; "*"; "("; b; ")"]).
  assert (Htree : buildTree toks = MkNode "*" (leaf a) (leaf b)).
  { change (buildTree toks) with (build 5 toks 0 4).
    rewrite (build_split 4 toks 0 4 1 a); try reflexivity; try assumption; try lia.
    - change (tokenAt toks 1) with "*". f_equal.
      + now apply (build_number 3 toks 0 (1 - 1) a).
      + rewrite (build_strips_on_first_and_last 3 toks (1 + 1) 4); try reflexivity; try lia.
        now apply (build_number 2 toks (1 + 1 + 1) (4 - 1) b).
    - change (Z.to_nat (4 - 0 + 1)) with 5%nat.
      rewrite (findOperator_number toks 4 0 3 (-1) 0 a eq_refl Hpa).
      rewrite (findOperator_operator toks 3 (0 + 1) 3 (-1) "*" 2 eq_refl eq_refl).
      change (2 <=? 3) with true. cbv iota.
      rewrite (findOperator_open toks 2 (0 + 1 + 1) 2 (0 + 1) 0 eq_refl).
      rewrite (findOperator_number toks 1 (0 + 1 + 1 + 1) 2 (0 + 1) (0 + 1) b eq_refl Hpb).
      rewrite (findOperator_close toks 0 (0 + 1 + 1 + 1 + 1) 2 (0 + 1) (0 + 1) eq_refl).
      reflexivity. }
  split; [reflexivity|]. split; [exact Htree|].
  fold toks. rewrite Htree. cbn [evaluate leaf isNil andb]. rewrite Hx, Hy.
  reflexivity.
Qed.

Lemma implicit_multiplication_witness :
  tokenizeExpression "12(34)" = ["12"; "*"; "("; "34"; ")"] /\
  buildTree (tokenizeExpression "12(34)") = MkNode "*" (leaf "12") (leaf "34") /\
  evaluate (buildTree (tokenizeExpression "12(34)")) =
    Returned (mul (of_Z 12) (of_Z 34)).
Proof.
  apply (implicit_multiplication "12" "34" (of_Z 12) (of_Z 34)); reflexivity.
Defined.

(** ** The validator: what the parser of Go requires *)

Ltac char_case c x :=
  destruct (isChar c x) eqn:?;
  [match goal with E : isChar c x = true |- _ => apply isChar_eq in E; subst c end|].

Ltac use_char_facts c H :=
  repeat match goal with
         | E : isChar c _ = false |- _ => rewrite ?E in H; rewrite ?E; clear E
         end.

Lemma countOpen_app (a b : list gotoken) :
  countOpen (a ++ b) = (countOpen a + countOpen b)%nat.
Proof.
  induction a as [|t a IH]; [reflexivity|]. destruct t; cbn; now rewrite IH.
Qed.

Lemma countClose_app (a b : list gotoken) :
  countClose (a ++ b) = (countClose a + countClose b)%nat.
Proof.
  induction a as [|t a IH]; [reflexivity|]. destruct t; cbn; now rewrite IH.
Qed.

Lemma scanChar_parens (m m' : scanMode) (c : ascii) (rest : string)
    (ts : list gotoken) :
  commentFree m (String c rest) = true -> noCommentStart (String c rest) = true ->
  scanChar m c = Some (ts, m') ->
  commentFree m' rest = true /\
  countOpen ts = (if isChar c "(" then 1 else 0)%nat /\
  countClose ts = (if isChar c ")" then 1 else 0)%nat.
Proof.
  intros Hm Hs H.
  assert (Hnext : isChar c "/" = true ->
            commentFree (SawSlash true) rest = true /\
            commentFree (SawSlash false) rest = true).
  { intros E. cbn [noCommentStart] in Hs. rewrite E in Hs.
    apply andb_true_iff in Hs as [Hs _]. split; exact Hs. }
  clear Hs.
  destruct m as [b | | | b | | | b1 b2 | | b | b1 b2]; try discriminate Hm;
    repeat match goal with b : bool |- _ => destruct b end.
  all: char_case c "/"%char;
    [try discriminate Hm; cbn in H; try discriminate H; injection H as <- <-;
     destruct (Hnext eq_refl); repeat split; assumption|].
  all: clear Hnext.
  all: char_case c "*"%char;
    [try discriminate Hm; cbn in H; try discriminate H; injection H as <- <-;
     repeat split|].
  all: clear Hm.
  all: char_case c "("%char; [cbn in H; try discriminate H; injection H as <- <-; repeat split|].
  all: char_case c ")"%char; [cbn in H; try discriminate H; injection H as <- <-; repeat split|].
  all: char_case c " "%char; [cbn in H; try discriminate H; injection H as <- <-; repeat split|].
  all: char_case c "009"%char; [cbn in H; try discriminate H; injection H as <- <-; repeat split|].
  all: char_case c "013"%char; [cbn in H; try discriminate H; injection H as <- <-; repeat split|].
  all: char_case c "010"%char; [cbn in H; try discriminate H; injection H as <- <-; repeat split|].
  all: char_case c "."%char; [cbn in H; try discriminate H; injection H as <- <-; repeat split|].
  all: char_case c "+"%char; [cbn in H; try discriminate H; injection H as <- <-; repeat split|].
  all: char_case c "-"%char; [cbn in H; try discriminate H; injection H as <- <-; repeat split|].
  all: unfold scanChar, scanAfterDot, scanBetween, emit in H; use_char_facts c H;
    cbn [orb andb] in H; destruct (IsDigit c); cbn [orb andb] in H;
    try discriminate H; injection H as <- <-; repeat split.
Qed.

Lemma scanChar_no_operand (m m' : scanMode) (c : ascii) (ts : list gotoken) :
  IsDigit c = false -> numberMode m = false ->
  scanChar m c = Some (ts, m') ->
  existsb isOperandToken ts = false /\ numberMode m' = false.
Proof.
  intros Hd Hm H.
  destruct m as [b | | | b | | | b1 b2 | | b | b1 b2]; try discriminate Hm;
    repeat match goal with b : bool |- _ => destruct b end.
  all: clear Hm.
  all: char_case c "/"%char; [cbn in H; try discriminate H; injection H as <- <-; split; reflexivity|].
  all: char_case c "*"%char; [cbn in H; try discriminate H; injection H as <- <-; split; reflexivity|].
  all: char_case c "("%char; [cbn in H; try discriminate H; injection H as <- <-; split; reflexivity|].
  all: char_case c ")"%char; [cbn in H; try discriminate H; injection H as <- <-; split; reflexivity|].
  all: char_case c " "%char; [cbn in H; try discriminate H; injection H as <- <-; split; reflexivity|].
  all: char_case c "009"%char; [cbn in H; try discriminate H; injection H as <- <-; split; reflexivity|].
  all: char_case c "013"%char; [cbn in H; try discriminate H; injection H as <- <-; split; reflexivity|].
  all: char_case c "010"%char; [cbn in H; try discriminate H; injection H as <- <-; split; reflexivity|].
  all: char_case c "."%char; [cbn in H; try discriminate H; injection H as <- <-; split; reflexivity|].
  all: char_case c "+"%char; [cbn in H; try discriminate H; injection H as <- <-; split; reflexivity|].
  all: char_case c "-"%char; [cbn in H; try discriminate H; injection H as <- <-; split; reflexivity|].
  all: unfold scanChar, scanAfterDot, scanBetween, emit in H; use_char_facts c H;
    rewrite ?Hd in H; cbn [orb andb] in H;
    try discriminate H; injection H as <- <-; split; reflexivity.
Qed.

Lemma scan_parens (s : string) :
  forall m ts,
    commentFree m s = true -> noCommentStart s = true -> scan m s = Some ts ->
    countOpen ts = countChar "(" s /\ countClose ts = countChar ")" s.
Proof.
  induction s as [|c s IH]; intros m ts Hm Hs H.
  - cbn [scan] in H.
    destruct m as [b | | | b | | | b1 b2 | | b | b1 b2]; try discriminate Hm;
      repeat match goal with b : bool |- _ => destruct b end;
      cbn in H; try discriminate H; injection H as <-; split; reflexivity.
  - cbn [scan] in H.
    destruct (scanChar m c) as [[ts1 m']|] eqn:E; [|discriminate H].
    destruct (scan m' s) as [ts2|] eqn:E2; [|discriminate H].
    injection H as <-.
    destruct (scanChar_parens m m' c s ts1 Hm Hs E) as (Hm' & Ho & Hc).
    cbn [noCommentStart] in Hs. apply andb_true_iff in Hs as [_ Hs].
    destruct (IH m' ts2 Hm' Hs E2) as [Ho2 Hc2].
    rewrite countOpen_app, countClose_app, Ho, Hc, Ho2, Hc2.
    cbn [countChar]. split; reflexivity.
Qed.

Lemma scan_no_operand (s : string) :
  forall m ts,
    hasDigit s = false -> numberMode m = false -> scan m s = Some ts ->
    existsb isOperandToken ts = false.
Proof.
  induction s as [|c s IH]; intros m ts Hs Hm H.
  - cbn [scan] in H.
    destruct m as [b | | | b | | | b1 b2 | | b | b1 b2]; try discriminate Hm;
      repeat match goal with b : bool |- _ => destruct b end;
      cbn in H; try discriminate H; injection H as <-; reflexivity.
  - cbn [scan] in H. cbn [hasDigit] in Hs. apply orb_false_iff in Hs as [Hc Hs].
    destruct (scanChar m c) as [[ts1 m']|] eqn:E; [|discriminate H].
    destruct (scan m' s) as [ts2|] eqn:E2; [|discriminate H].
    injection H as <-.
    destruct (scanChar_no_operand m m' c ts1 Hc Hm E) as [H1 Hm'].
    rewrite existsb_app, H1. exact (IH m' ts2 Hs Hm' E2).
Qed.

Lemma parseTokens_balanced (ts : list gotoken) :
  forall st stack,
    parseTokens st stack ts = true ->
    (countOpen ts + List.length stack = countClose ts)%nat.
Proof.
  induction ts as [|t ts IH]; intros st stack H.
  - destruct st, stack; try discriminate H. reflexivity.
  - destruct st, t; cbn [parseTokens] in H; try discriminate H;
      repeat match goal with
             | H : match ?x with _ => _ end = true |- _ => destruct x
             end;
      try discriminate H;
      try (apply IH in H; cbn [countOpen countClose List.length] in *; lia);
      reflexivity.
Qed.

Lemma parseTokens_needs_operand (ts : list gotoken) :
  forall stack,
    parseTokens WantOperand stack ts = true -> existsb isOperandToken ts = true.
Proof.
  induction ts as [|t ts IH]; intros stack H; [discriminate H|].
  destruct t; cbn [parseTokens] in H; try discriminate H;
    try reflexivity; exact (IH _ H).
Qed.

Lemma countChar_removeSpaces (c : ascii) (s : string) :
  isChar " " c = false -> countChar c (removeSpaces s) = countChar c s.
Proof.
  intros Hc. induction s as [|d s IH]; [reflexivity|].
  cbn [removeSpaces countChar]. destruct (isChar d " ") eqn:E.
  - apply isChar_eq in E. subst d. now rewrite Hc, IH.
  - cbn [countChar]. now rewrite IH.
Qed.

Lemma hasDigit_removeSpaces (s : string) :
  hasDigit (removeSpaces s) = hasDigit s.
Proof.
  induction s as [|d s IH]; [reflexivity|].
  cbn [removeSpaces hasDigit]. destruct (isChar d " ") eqn:E.
  - apply isChar_eq in E. subst d. exact IH.
  - cbn [hasDigit]. now rewrite IH.
Qed.

(** X11.  An expression without a digit is never valid: signs, operators,
    points and parentheses alone, or blanks alone, are rejected. *)
Theorem validate_needs_a_digit (Expr : string) :
  hasDigit Expr = false -> validateArithmeticExpression Expr = false.
Proof.
  intros H. unfold validateArithmeticExpression, ParseExprOk.
  destruct (matchesPattern (removeSpaces Expr)); [|reflexivity]. cbn [negb].
  destruct (scan (Between false) (removeSpaces Expr)) as [ts|] eqn:E; [|reflexivity].
  rewrite <- hasDigit_removeSpaces in H.
  pose proof (scan_no_operand _ (Between false) ts H eq_refl E) as Hno.
  destruct (parseTokens WantOperand [] ts) eqn:Ep; [|reflexivity].
  rewrite (parseTokens_needs_operand ts [] Ep) in Hno. discriminate Hno.
Qed.

Lemma validate_needs_a_digit_witness :
  validateArithmeticExpression "-(+.)" = false.
Proof. apply (validate_needs_a_digit "-(+.)"). reflexivity. Defined.

(** X12.  In a valid expression where no ['/'] is followed, spaces apart,
    by a ['/'] or a ['*'] (which would open a comment for the parser of
    Go), there are as many ['('] as [')']. *)
Theorem valid_expressions_are_balanced (Expr : string) :
  noCommentStart (removeSpaces Expr) = true ->
  validateArithmeticExpression Expr = true ->
  countChar "(" Expr = countChar ")" Expr.
Proof.
  intros Hc H. unfold validateArithmeticExpression, ParseExprOk in H.
  destruct (matchesPattern (removeSpaces Expr)); [|discriminate H]. cbn [negb] in H.
  destruct (scan (Between false) (removeSpaces Expr)) as [ts|] eqn:E; [|discriminate H].
  destruct (scan_parens _ (Between false) ts eq_refl Hc E) as [Ho Hcl].
  pose proof (parseTokens_balanced ts WantOperand [] H) as Hb.
  cbn [List.length] in Hb.
  rewrite <- (countChar_removeSpaces "(" Expr eq_refl),
          <- (countChar_removeSpaces ")" Expr eq_refl).
  lia.
Qed.

Lemma valid_expressions_are_balanced_witness :
  countChar "(" "2 (3 / (4 - 1))" = countChar ")" "2 (3 / (4 - 1))".
Proof.
  apply (valid_expressions_are_balanced "2 (3 / (4 - 1))"); reflexivity.
Defined.

(** ** Signs *)

Lemma tokLoop_number_chars (s : string) :
  forall i st, allNumberChars s = true ->
    tokLoop i s st = mkTokState (tokens st) (number st ++ s) (prevToken st) (printed st).
Proof.
  induction s as [|c s IH]; intros i st H.
  - cbn [tokLoop]. rewrite append_empty_r. now destruct st.
  - cbn [allNumberChars] in H. apply andb_true_iff in H as [Hc Hs].
    cbn [tokLoop]. rewrite (IH _ _ Hs). unfold tokStep. rewrite Hc.
    cbn [tokens number prevToken printed]. now rewrite append_assoc_string.
Qed.

(** X13.  A number written alone, with or without a leading ['-'], is one
    token and one leaf, and evaluates to the value [strconv.ParseFloat]
    gives it. *)
Theorem literal_evaluates_to_its_value (negative : bool) (a : string) (x : float64) :
  allNumberChars a = true ->
  ParseFloat (if negative then String "-" a else a) = Some x ->
  tokenizeExpression (if negative then String "-" a else a) =
    [if negative then String "-" a else a] /\
  buildTree (tokenizeExpression (if negative then String "-" a else a)) =
    leaf (if negative then String "-" a else a) /\
  evaluate (buildTree (tokenizeExpression (if negative then String "-" a else a))) =
    Returned x.
Proof.
  intros Ha Hx.
  assert (Htok : tokenizeExpression (if negative then String "-" a else a) =
                 [if negative then String "-" a else a]).
  { unfold tokenizeExpression, tokenizeRun. destruct negative.
    - cbn [tokLoop]. replace (tokStep 0 "-" tokInit) with (mkTokState [] "-" "" [])
        by reflexivity.
      rewrite (tokLoop_number_chars a _ _ Ha). reflexivity.
    - rewrite (tokLoop_number_chars a _ _ Ha).
      destruct a as [|c a]; [discriminate Hx | reflexivity]. }
  split; [exact Htok|]. rewrite Htok.
  set (lit := if negative then String "-" a else a) in *.
  change (buildTree [lit]) with (build 1 [lit] 0 0).
  rewrite (build_number 0 [lit] 0 0 lit eq_refl eq_refl)
    by (unfold parsesAsFloat; now rewrite Hx).
  split; [reflexivity|].
  cbn [evaluate leaf isNil andb]. now rewrite Hx.
Qed.

Lemma literal_evaluates_to_its_value_witness :
  tokenizeExpression "-2.5" = ["-2.5"] /\
  buildTree (tokenizeExpression "-2.5") = leaf "-2.5" /\
  evaluate (buildTree (tokenizeExpression "-2.5")) =
    Returned (S754_finite true 5629499534213120 (-51)).
Proof.
  apply (literal_evaluates_to_its_value true "2.5"); reflexivity.
Defined.

Lemma build_operator (size : nat) (toks : list string) (start end_ opIndex : Z) :
  start <= end_ ->
  (start =? end_) && parsesAsFloat (tokenAt toks start) = false ->
  String.eqb (tokenAt toks start) "-" && (start + 1 <=? end_)
    && parsesAsFloat (tokenAt toks (start + 1)) = false ->
  String.eqb (tokenAt toks start) "(" && String.eqb (tokenAt toks end_) ")" = false ->
  findOperator toks (Z.to_nat (end_ - start + 1)) start 3 (-1) 0 = opIndex ->
  opIndex <> -1 ->
  build (S size) toks start end_ =
    MkNode (tokenAt toks opIndex)
           (build size toks start (opIndex - 1))
           (build size toks (opIndex + 1) end_).
Proof.
  intros Hle H1 H2 H3 Hop Hne. rewrite build_unfold, H1, H2, H3. cbv zeta.
  rewrite Hop.
  destruct (Z.ltb_spec end_ start); [lia|].
  destruct (Z.eqb_spec opIndex (-1)); [contradiction | reflexivity].
Qed.

(** X14.  A ['-'] at the start of the expression, before a parenthesized
    number, negates it: the ['-'] becomes a token of its own, the builder
    makes it a node without left child, and the evaluator returns the
    opposite of the operand. *)
Theorem leading_minus_negates_a_group (b : string) (y : float64) :
  allDigits b = true -> ParseFloat b = Some y ->
  tokenizeExpression (String "-" (String "(" (b ++ ")"))) = ["-"; "("; b; ")"] /\
  buildTree (tokenizeExpression (String "-" (String "(" (b ++ ")")))) =
    MkNode "-" NilNode (leaf b) /\
  evaluate (buildTree (tokenizeExpression (String "-" (String "(" (b ++ ")"))))) =
    Returned (neg y).
Proof.
  intros Hb Hy.
  assert (Hnb : b <> "") by (intros ->; discriminate Hy).
  assert (Hpb : parsesAsFloat b = true) by (unfold parsesAsFloat; now rewrite Hy).
  assert (Htok : tokenizeExpression (String "-" (String "(" (b ++ ")"))) =
                 ["-"; "("; b; ")"]).
  { unfold tokenizeExpression, tokenizeRun. cbn [tokLoop].
    replace (tokStep 1 "(" (tokStep 0 "-" tokInit))
      with (mkTokState ["-"; "("] "" "(" []) by reflexivity.
    rewrite tokLoop_app, (tokLoop_digits b _ _ Hb).
    cbn [tokLoop tokens number prevToken printed String.append].
    destruct b as [|d b]; [now elim Hnb | reflexivity]. }
  rewrite Htok. pose (toks := ["-"; "("; b; ")"]).
  assert (Htree : buildTree toks = MkNode "-" NilNode (leaf b)).
  { change (buildTree toks) with (build 4 toks 0 3).
    rewrite (build_operator 3 toks 0 3 0); try reflexivity; try lia.
    - change (tokenAt toks 0) with "-". f_equal.
      rewrite (build_strips_on_first_and_last 2 toks (0 + 1) 3); try reflexivity; try lia.
      now apply (build_number 1 toks (0 + 1 + 1) (3 - 1) b).
    - change (Z.to_nat (3 - 0 + 1)) with 4%nat.
      rewrite (findOperator_operator toks 3 0 3 (-1) "-" 1 eq_refl eq_refl).
      change (1 <=? 3) with true. cbv iota.
      rewrite (findOperator_open toks 2 (0 + 1) 1 0 0 eq_refl).
      rewrite (findOperator_number toks 1 (0 + 1 + 1) 1 0 (0 + 1) b eq_refl Hpb).
      rewrite (findOperator_close toks 0 (0 + 1 + 1 + 1) 1 0 (0 + 1) eq_refl).
      reflexivity. }
  split; [reflexivity|]. split; [exact Htree|].
  fold toks. rewrite Htree. cbn [evaluate leaf isNil andb String.eqb Ascii.eqb Bool.eqb bind].
  now rewrite Hy.
Qed.

Lemma leading_minus_negates_a_group_witness :
  tokenizeExpression "-(40)" = ["-"; "("; "40"; ")"] /\
  buildTree (tokenizeExpression "-(40)") = MkNode "-" NilNode (leaf "40") /\
  evaluate (buildTree (tokenizeExpression "-(40)")) = Returned (neg (of_Z 40)).
Proof.
  apply (leading_minus_negates_a_group "40" (of_Z 40)); reflexivity.
Defined.
